(** * TrackerParameterFinder: the offline replay and tuning tool of the
      unified video-inertial tracker

    A shallow embedding of
    [plugins/unifiedvideoinertialtracker/TrackerParameterFinder.cpp]:
    the CSV measurement loader ([LoadRow], [loadData]), the mapping of a
    parameter vector to a configuration ([updateConfigFromVec]), the NEWUOA
    wrapper ([ei_newuoa], [runOptimizer]), the pose filter ([PoseFilter]) and
    the RANSAC strategy ([RansacOneEuro]).

    A C++ [double] is a binary64 value, which is what Rocq's primitive [float]
    is; comparisons are the IEEE ones ([PrimFloat.leb], [PrimFloat.ltb]). *)

From Stdlib Require Import ZArith Ascii String Uint63 Floats.
From stdpp Require Import base option list strings vector.

Set Warnings "-inexact-float".
Set Default Proof Using "Type".

Local Open Scope Z_scope.

Abbreviation double := PrimFloat.float (only parsing).

(** ** Eigen values

    A default-constructed [Eigen::Vector3d] or [Eigen::Quaterniond] holds
    indeterminate coefficients, and so does a default-initialised
    [OSVR_TimeValue]. A coefficient is therefore a slot: [None] until it is
    written. *)

Definition coeff : Type := option double.

Definition Vector3d : Type := list coeff.

Definition Vector3d_new : Vector3d := [None; None; None].

(** [v[i] = val] with [i] a [std::size_t]. The vector has three
    coefficients; [None] is the access outside them ([eigen_assert] fails
    when assertions are compiled in, and the store misses the vector when
    they are not). *)
Definition Vector3d_set (v : Vector3d) (i : Z) (val : double)
  : option Vector3d :=
  if decide (0 <= i < Z.of_nat (length v))
  then Some (<[Z.to_nat i := Some val]> v)
  else None.

Record Quaterniond : Type := mkQuaterniond {
  qw : coeff; qx : coeff; qy : coeff; qz : coeff
}.

Definition Quaterniond_new : Quaterniond := mkQuaterniond None None None None.

Definition set_w (q : Quaterniond) (v : double) : Quaterniond :=
  mkQuaterniond (Some v) (qx q) (qy q) (qz q).
Definition set_x (q : Quaterniond) (v : double) : Quaterniond :=
  mkQuaterniond (qw q) (Some v) (qy q) (qz q).
Definition set_y (q : Quaterniond) (v : double) : Quaterniond :=
  mkQuaterniond (qw q) (qx q) (Some v) (qz q).
Definition set_z (q : Quaterniond) (v : double) : Quaterniond :=
  mkQuaterniond (qw q) (qx q) (qy q) (Some v).

Record TimeValue : Type := mkTimeValue {
  seconds : option Z;
  microseconds : option Z
}.

Definition TimeValue_new : TimeValue := mkTimeValue None None.

(** [std::size_t] arithmetic: [field_++] wraps at [2^64]. *)
Definition size_t_max : Z := 2 ^ 64.
Definition size_t_incr (n : Z) : Z := (n + 1) mod size_t_max.

(** ** What the tool takes from CSVTools.h *)

(** Modelled from the spec: [CSVTools.h] ([csvtools::iterateFields],
    [StringField], [FieldParserHelper], [getCleanLine]) is not among the
    sources. Following section 4.1, a line is tokenized into its fields, in
    order ([fieldsOf]); a field is read as a number or the read fails
    ([getFieldAs_double], [getFieldAs_float], and [getField] into the
    [seconds] and [microseconds] members); [cleanLine] is what
    [getCleanLine] makes of a line it read from the stream. [float32] is the
    C++ [float]. *)
Class CSVTools : Type := {
  float32 : Type;
  fieldsOf : string -> list string;
  getFieldAs_double : string -> option double;
  getFieldAs_float : string -> option float32;
  getField_seconds : string -> option Z;
  getField_microseconds : string -> option Z;
  cleanLine : string -> string
}.

Section Loader.
Context {tools : CSVTools}.

(** [static const cv::Size IMAGE_SIZE = {640, 480}] *)
Definition IMAGE_SIZE : Z * Z := (640, 480).

(** The arguments [LedMeasurement]'s constructor is called with. *)
Record LedMeasurement : Type := mkLedMeasurement {
  led_x : float32;
  led_y : float32;
  led_size : float32;
  led_imageSize : Z * Z
}.

Record TimestampedMeasurements : Type := mkRow {
  tv : TimeValue;
  xlate : Vector3d;
  rot : Quaterniond;
  measurements : list LedMeasurement;
  ok : bool
}.

(** [new TimestampedMeasurements] *)
Definition TimestampedMeasurements_new : TimestampedMeasurements :=
  mkRow TimeValue_new Vector3d_new Quaterniond_new [] false.

Definition with_xlate (r : TimestampedMeasurements) (v : Vector3d) :=
  mkRow (tv r) v (rot r) (measurements r) (ok r).
Definition with_rot (r : TimestampedMeasurements) (q : Quaterniond) :=
  mkRow (tv r) (xlate r) q (measurements r) (ok r).
Definition with_seconds (r : TimestampedMeasurements) (s : Z) :=
  mkRow (mkTimeValue (Some s) (microseconds (tv r)))
        (xlate r) (rot r) (measurements r) (ok r).
Definition with_microseconds (r : TimestampedMeasurements) (u : Z) :=
  mkRow (mkTimeValue (seconds (tv r)) (Some u))
        (xlate r) (rot r) (measurements r) (ok r).
Definition with_ok (r : TimestampedMeasurements) (b : bool) :=
  mkRow (tv r) (xlate r) (rot r) (measurements r) b.
Definition push_measurement (r : TimestampedMeasurements)
    (m : LedMeasurement) :=
  mkRow (tv r) (xlate r) (rot r) (measurements r ++ [m]) (ok r).

(** The functor [LoadRow]: the row it fills (held by reference in the
    source), the 1-based field counter and the pending blob pieces.
    [outOfRange_] is not a member of the class: it records that a store
    into [xlate] went outside its three coefficients. *)
Record LoadRow : Type := mkLoadRow {
  row_ : TimestampedMeasurements;
  field_ : Z;
  measurementPieces_ : list float32;
  outOfRange_ : bool
}.

Definition LoadRow_new (row : TimestampedMeasurements) : LoadRow :=
  mkLoadRow row 0 [] false.

Definition with_row (self : LoadRow) (r : TimestampedMeasurements) :=
  mkLoadRow r (field_ self) (measurementPieces_ self) (outOfRange_ self).

(** [row_.xlate[field_] = val]. Outside the vector the three coefficients
    keep their values, the miss is recorded, and the functor goes on as
    the build without assertions does. *)
Definition store_xlate (self : LoadRow) (val : double) : LoadRow :=
  match Vector3d_set (xlate (row_ self)) (field_ self) val with
  | Some v => with_row self (with_xlate (row_ self) v)
  | None =>
      mkLoadRow (row_ self) (field_ self) (measurementPieces_ self) true
  end.

(** The [switch (field_)] of the quaternion branch; no [default] label. *)
Definition store_rot (self : LoadRow) (val : double) : LoadRow :=
  let q := rot (row_ self) in
  let q' :=
    if field_ self =? 4 then set_w q val
    else if field_ self =? 5 then set_x q val
    else if field_ self =? 6 then set_y q val
    else if field_ self =? 7 then set_z q val
    else q in
  with_row self (with_rot (row_ self) q').

(** [measurementPieces_.push_back(val)], then a new LED for every third
    piece. *)
Definition push_piece (self : LoadRow) (val : float32) : LoadRow :=
  match measurementPieces_ self ++ [val] with
  | [a; b; c] =>
      mkLoadRow
        (push_measurement (row_ self) (mkLedMeasurement a b c IMAGE_SIZE))
        (field_ self) [] (outOfRange_ self)
  | pieces =>
      mkLoadRow (row_ self) (field_ self) pieces (outOfRange_ self)
  end.

(** [LoadRow::operator()] on one field; the boolean is its return value. *)
Definition LoadRow_call (self0 : LoadRow) (strField : string)
  : LoadRow * bool :=
  let self :=
    mkLoadRow (row_ self0) (size_t_incr (field_ self0))
              (measurementPieces_ self0) (outOfRange_ self0) in
  if field_ self <=? 3 then
    match getFieldAs_double strField with
    | None => (self, false)
    | Some val => (store_xlate self val, true)
    end
  else if field_ self <=? 7 then
    match getFieldAs_double strField with
    | None => (self, false)
    | Some val => (store_rot self val, true)
    end
  else if field_ self =? 8 then
    match getField_seconds strField with
    | None => (self, false)
    | Some s => (with_row self (with_seconds (row_ self) s), true)
    end
  else if field_ self =? 9 then
    match getField_microseconds strField with
    | None => (self, false)
    | Some u =>
        (with_row self (with_ok (with_microseconds (row_ self) u) true),
         true)
    end
  else
    match getFieldAs_float strField with
    | None => (self, false)
    | Some val => (push_piece self val, true)
    end.

(** Modelled from the spec: [csvtools::iterateFields] is not among the
    sources. It hands the fields of the line to the functor in order; the
    functor's [bool] says whether to go on, so the walk ends with the
    first [false]. *)
Fixpoint iterateFields_from (self : LoadRow) (fields : list string)
  : LoadRow :=
  match fields with
  | [] => self
  | strField :: rest =>
      let '(self', cont) := LoadRow_call self strField in
      if cont then iterateFields_from self' rest else self'
  end.

Definition iterateFields (self : LoadRow) (line : string) : LoadRow :=
  iterateFields_from self (fieldsOf line).

(** What goes to [std::cerr] and [std::cout]. *)
Inductive Diagnostic : Type :=
| CouldNotOpen (fn : string)
| HeaderRowEmpty
| LeftoverPieces
| RowHasBlobs (n : nat)
| RowWentWrong (dataLine : string)
| TotalRows (n : nat).

(** The body of the [while (csvFile)] loop on one [dataLine]: a fresh row,
    [iterateFields] with a temporary [LoadRow] (whose destructor reports
    leftover pieces), and the test of [newRow->ok]. *)
Definition loadLine (dataLine : string) : LoadRow :=
  iterateFields (LoadRow_new TimestampedMeasurements_new) dataLine.

Definition load_step (dataLine : string)
    (ret : list TimestampedMeasurements) (out : list Diagnostic)
  : list TimestampedMeasurements * list Diagnostic :=
  let functor := loadLine dataLine in
  let newRow := row_ functor in
  let out :=
    match measurementPieces_ functor with
    | [] => out
    | _ => out ++ [LeftoverPieces]
    end in
  if ok newRow
  then (ret ++ [newRow],
        out ++ [RowHasBlobs (length (measurements newRow))])
  else (ret, out ++ [RowWentWrong dataLine]).

(** The loop. The stream is the list of the lines [std::getline] has yet
    to deliver; a read at the end delivers nothing and sets the fail bit,
    which ends the loop. [dataLine] is the line last read. *)
Fixpoint load_loop (csvFile : list string) (dataLine : string)
    (ret : list TimestampedMeasurements) (out : list Diagnostic)
  : list TimestampedMeasurements * list Diagnostic :=
  let '(ret, out) := load_step dataLine ret out in
  match csvFile with
  | [] => (ret, out ++ [TotalRows (length ret)])
  | next :: csvFile' => load_loop csvFile' (cleanLine next) ret out
  end.

(** [loadData]. [fs] is the file system: the lines of the file of that
    name, or [None] when [std::ifstream] cannot open it. *)
Definition loadData (fs : string -> option (list string)) (fn : string)
  : list TimestampedMeasurements * list Diagnostic :=
  match fs fn with
  | None => ([], [CouldNotOpen fn])
  | Some [] => ([], [HeaderRowEmpty])
  | Some (header :: csvFile) =>
      if decide (cleanLine header = "") then ([], [HeaderRowEmpty])
      else
        match csvFile with
        | [] => ([], [TotalRows 0])
        | first :: csvFile' => load_loop csvFile' (cleanLine first) [] []
        end
  end.


(** *** What a line says, field by field

    The reading of a line that the loader is compared with: the nine
    required fields (three translation and four rotation values, seconds,
    microseconds) when the line has them and each can be read, and the
    fields that trail them. *)
Definition nextField {A : Type} (read : string -> option A)
    (fields : list string) : option (A * list string) :=
  match fields with
  | [] => None
  | f :: rest => v ← read f; Some (v, rest)
  end.

Record Required : Type := mkRequired {
  ref_x : double; ref_y : double; ref_z : double;
  ref_qw : double; ref_qx : double; ref_qy : double; ref_qz : double;
  ref_sec : Z; ref_usec : Z
}.

Definition requiredFields (fields : list string)
  : option (Required * list string) :=
  '(v0, fields) ← nextField getFieldAs_double fields;
  '(v1, fields) ← nextField getFieldAs_double fields;
  '(v2, fields) ← nextField getFieldAs_double fields;
  '(v3, fields) ← nextField getFieldAs_double fields;
  '(v4, fields) ← nextField getFieldAs_double fields;
  '(v5, fields) ← nextField getFieldAs_double fields;
  '(v6, fields) ← nextField getFieldAs_double fields;
  '(s, fields) ← nextField getField_seconds fields;
  '(u, trailing) ← nextField getField_microseconds fields;
  Some (mkRequired v0 v1 v2 v3 v4 v5 v6 s u, trailing).

(** The state of the functor after the nine required fields. The first
    field sits in translation coefficient 1, the second in coefficient 2;
    the third missed the vector, and coefficient 0 was never written. *)
Definition afterRequired (r : Required) : LoadRow :=
  mkLoadRow
    (mkRow (mkTimeValue (Some (ref_sec r)) (Some (ref_usec r)))
           [None; Some (ref_x r); Some (ref_y r)]
           (mkQuaterniond (Some (ref_qw r)) (Some (ref_qx r))
                          (Some (ref_qy r)) (Some (ref_qz r)))
           [] true)
    9 [] true.

Definition readsRequired (line : string) : bool :=
  bool_decide (is_Some (requiredFields (fieldsOf line))).

(** Consecutive triples of a list, left to right; one or two values left
    at the end make no triple. *)
Fixpoint triples {A : Type} (l : list A) : list (A * A * A) :=
  match l with
  | a :: b :: c :: rest => (a, b, c) :: triples rest
  | _ => []
  end.

Definition ledOf (t : float32 * float32 * float32) : LedMeasurement :=
  let '(a, b, c) := t in mkLedMeasurement a b c IMAGE_SIZE.

(** The row read from a line of the file. *)
Definition rowOf (line : string) : TimestampedMeasurements :=
  row_ (loadLine (cleanLine line)).

End Loader.

(** ** Parameter vector and configuration *)

(** [using ParamVec = Eigen::Vector4d] *)
Definition ParamVec : Type := vec double 4.

(** Modelled from the spec: [ConfigParams.h], [MakeHDKTrackingSystem.h] and
    [TrackedBodyTarget.h] are not among the sources. Following section 3, a
    configuration has a 6-slot process-noise autocorrelation array and the
    scalar fields [beaconProcessNoise] and [measurementVarianceScaleFactor];
    [ConfigRest] stands for its other members. The factory builds a tracking
    system from a configuration, and a target is looked up in it by body and
    target identifier. *)
Class TrackerLib : Type := {
  ConfigRest : Type;
  ConfigRest_default : ConfigRest;
  processNoiseAutocorrelation_default : vec double 6;
  beaconProcessNoise_default : double;
  measurementVarianceScaleFactor_default : double;
  TrackingSystem : Type;
  TrackedBodyTarget : Type;
  makeHDKTrackingSystem_with :
    vec double 6 -> double -> double -> ConfigRest -> TrackingSystem;
  getTarget : TrackingSystem -> Z -> Z -> TrackedBodyTarget
}.

(** Modelled from the spec: [newuoa.h] is not among the sources. Following
    section 6, the minimizer takes the objective, the dimension, the number
    of interpolation points, the start vector, the two radii, the evaluation
    limit and its working space (here: its size), and returns the final
    objective value; the vector it leaves in [x] is the second component. *)
Class Newuoa : Type := {
  newuoa : forall n : nat,
    (Z -> vec double n -> double) -> Z -> Z -> vec double n ->
    double -> double -> Z -> Z -> double * vec double n
}.

(** [long] is the 64-bit signed integer of the platforms the tracker is
    built for. Signed overflow has no defined result: a value outside the
    range is [None]. *)
Definition long_min : Z := - 2 ^ 63.
Definition long_max : Z := 2 ^ 63 - 1.

Definition long_checked (z : Z) : option Z :=
  if (long_min <=? z) && (z <=? long_max) then Some z else None.

(** [Eigen::VectorXd workingSpace(size)]: a vector of [size] doubles of 8
    bytes. A negative size, or one whose bytes do not fit [std::size_t],
    is not allocated. Running out of memory below that is not modelled,
    here or for the rows of the log. *)
Definition VectorXd_allocates (size : Z) : bool :=
  (0 <=? size) && (size * 8 <? size_t_max).

Section Optimizer.
Context {lib : TrackerLib} {opt : Newuoa}.

Record ConfigParams : Type := mkConfigParams {
  processNoiseAutocorrelation : vec double 6;
  beaconProcessNoise : double;
  measurementVarianceScaleFactor : double;
  otherParams : ConfigRest
}.

(** [ConfigParams params;] *)
Definition ConfigParams_new : ConfigParams :=
  mkConfigParams processNoiseAutocorrelation_default
                 beaconProcessNoise_default
                 measurementVarianceScaleFactor_default
                 ConfigRest_default.

Definition makeHDKTrackingSystem (params : ConfigParams) : TrackingSystem :=
  makeHDKTrackingSystem_with
    (processNoiseAutocorrelation params) (beaconProcessNoise params)
    (measurementVarianceScaleFactor params) (otherParams params).

(** [updateConfigFromVec]. A chained assignment [a[0] = a[1] = a[2] = v]
    stores right to left, each store taking the value of the one before. *)
Definition updateConfigFromVec (params : ConfigParams) (paramVec : ParamVec)
  : ConfigParams :=
  let a := processNoiseAutocorrelation params in
  (* positional noise *)
  let a := vinsert 2%fin (paramVec !!! 0%fin) a in
  let a := vinsert 1%fin (a !!! 2%fin) a in
  let a := vinsert 0%fin (a !!! 1%fin) a in
  (* rotational noise *)
  let a := vinsert 5%fin (paramVec !!! 1%fin) a in
  let a := vinsert 4%fin (a !!! 5%fin) a in
  let a := vinsert 3%fin (a !!! 4%fin) a in
  mkConfigParams a (paramVec !!! 2%fin) (paramVec !!! 3%fin)
                 (otherParams params).

(** [(npt + 13) * (npt + n) + 3 * n * (n + 3) / 2] in [long], operation by
    operation as C++ groups them; [/] truncates. *)
Definition workingSpaceNeeded (npt n : Z) : option Z :=
  a ← long_checked (npt + 13);
  b ← long_checked (npt + n);
  ab ← long_checked (a * b);
  c ← long_checked (3 * n);
  d ← long_checked (n + 3);
  cd ← long_checked (c * d);
  long_checked (ab + Z.quot cd 2).

(** [ei_newuoa]: the friendlier wrapper around [newuoa]. [None] is the run
    that does not reach [newuoa]: an argument or an intermediate value that
    is no [long], or a working space that cannot be allocated. *)
Definition ei_newuoa {n : nat} (npt : Z) (x : vec double n)
    (rho : double * double) (maxfun : Z) (f : Z -> vec double n -> double)
  : option (double * vec double n) :=
  npt ← long_checked npt;
  maxfun ← long_checked maxfun;
  let '(rhoBeg, rhoEnd) := rho in
  let '(rhoBeg, rhoEnd) :=
    if PrimFloat.ltb rhoBeg rhoEnd (* rhoEnd > rhoBeg *)
    then (rhoEnd, rhoBeg) else (rhoBeg, rhoEnd) in
  n' ← long_checked (Z.of_nat n);
  size ← workingSpaceNeeded npt n';
  if VectorXd_allocates size
  then Some (newuoa n f n' npt x rhoBeg rhoEnd maxfun size)
  else None.

(** The lambda [runOptimizer] hands to the optimizer. *)
Definition objective (n : Z) (x : ParamVec) : double :=
  let params := updateConfigFromVec ConfigParams_new x in
  let system := makeHDKTrackingSystem params in
  let target := getTarget system 0 0 in
  (* @todo *)
  0%float.

(** [runOptimizer]: the vector [x] after the run, and what it prints (the
    value the optimizer returned and [x]); [None] when the wrapper does not
    reach the optimizer. *)
Definition runOptimizer (fn : string)
  : option (ParamVec * (double * ParamVec)) :=
  let x : ParamVec := [# 4.14e-6; 1e-2; 0; 5e-2]%float in
  let npt := 4 * 2 in
  '(ret, x) ← ei_newuoa npt x (1e-8, 1e-4)%float 10 objective;
  Some (x, (ret, x)).

End Optimizer.

(** ** Pose filter and the RANSAC strategy *)

(** Modelled from the spec: [osvr/Util/EigenFilters.h] and
    [osvr/Util/TimeValue.h] are not among the sources. Following sections 3
    and 4.2, a one-euro filter is a state that a sample and a time step
    update and whose current value can be read, one filter type for
    positions and one for orientations; [osvrTimeValueDurationSeconds a b]
    is the time from [b] to [a] in seconds. *)
Class EigenFilters : Type := {
  OneEuroFilter_Vector3d : Type;
  OneEuroFilter_Quaterniond : Type;
  OneEuroFilter_Vector3d_new : OneEuroFilter_Vector3d;
  OneEuroFilter_Quaterniond_new : OneEuroFilter_Quaterniond;
  filter_Vector3d :
    OneEuroFilter_Vector3d -> double -> Vector3d -> OneEuroFilter_Vector3d;
  filter_Quaterniond :
    OneEuroFilter_Quaterniond -> double -> Quaterniond ->
    OneEuroFilter_Quaterniond;
  getState_Vector3d : OneEuroFilter_Vector3d -> Vector3d;
  getState_Quaterniond : OneEuroFilter_Quaterniond -> Quaterniond;
  osvrTimeValueDurationSeconds : TimeValue -> TimeValue -> double
}.

Section Strategies.
Context {tools : CSVTools} {filters : EigenFilters}.

Record PoseFilter : Type := mkPoseFilter {
  m_positionFilter : OneEuroFilter_Vector3d;
  m_orientationFilter : OneEuroFilter_Quaterniond
}.

Definition PoseFilter_new : PoseFilter :=
  mkPoseFilter OneEuroFilter_Vector3d_new OneEuroFilter_Quaterniond_new.

(** [PoseFilter::filter] *)
Definition PoseFilter_filter (self : PoseFilter) (dt : double)
    (position : Vector3d) (orientation : Quaterniond) : PoseFilter :=
  let dt := if PrimFloat.leb dt 0%float then 1%float else dt in
  mkPoseFilter (filter_Vector3d (m_positionFilter self) dt position)
               (filter_Quaterniond (m_orientationFilter self) dt orientation).

Definition getPosition (self : PoseFilter) : Vector3d :=
  getState_Vector3d (m_positionFilter self).

Definition getOrientation (self : PoseFilter) : Quaterniond :=
  getState_Quaterniond (m_orientationFilter self).

Record RansacOneEuro : Type := mkRansacOneEuro {
  ransacPoseFilter : PoseFilter;
  last : TimeValue;
  isFirst : bool;
  gotPose : bool
}.

Definition RansacOneEuro_new : RansacOneEuro :=
  mkRansacOneEuro PoseFilter_new TimeValue_new true false.

(** [RansacOneEuro::operator()]. [gotRansac] is what
    [target.uncalibratedRANSACPoseEstimateFromLeds] answers at this call:
    [None] for failure, the position and orientation for success. The
    second component is the [dt] handed to [ransacPoseFilter.filter], if
    the filter was called. *)
Definition RansacOneEuro_call (self : RansacOneEuro)
    (gotRansac : option (Vector3d * Quaterniond))
    (row : TimestampedMeasurements) : RansacOneEuro * option double :=
  let self :=
    mkRansacOneEuro (ransacPoseFilter self) (last self) (isFirst self)
                    false in
  match gotRansac with
  | Some (pos, quat) =>
      let dt :=
        if isFirst self then 1%float
        else osvrTimeValueDurationSeconds (tv row) (last self) in
      (mkRansacOneEuro
         (PoseFilter_filter (ransacPoseFilter self) dt pos quat)
         (tv row) false true,
       Some dt)
  | None => (self, None)
  end.

Definition havePose (self : RansacOneEuro) : bool := gotPose self.

(** The strategy over the rows of a replay, each with the answer RANSAC
    gives for it: the final state and the [dt] fed to the filter at each
    row. *)
Fixpoint RansacOneEuro_run (self : RansacOneEuro)
    (rows : list (option (Vector3d * Quaterniond) * TimestampedMeasurements))
  : RansacOneEuro * list (option double) :=
  match rows with
  | [] => (self, [])
  | (gotRansac, row) :: rest =>
      let '(self', dt) := RansacOneEuro_call self gotRansac row in
      let '(final, dts) := RansacOneEuro_run self' rest in
      (final, dt :: dts)
  end.

End Strategies.

(** ** The main algorithm and the replay

    [makeImageOutputDataFromRow], [MainAlgoUnderStudy] and the loop of
    [main]. *)

(** [ImageProcessingOutput], as far as [makeImageOutputDataFromRow] fills
    it. *)
Record ImageProcessingOutput (Led Cam : Type) : Type :=
  mkImageProcessingOutput {
    image_tv : TimeValue;
    ledMeasurements : list Led;
    camParams : Cam
  }.
Arguments mkImageProcessingOutput {Led Cam} _ _ _.
Arguments image_tv {Led Cam} _.
Arguments ledMeasurements {Led Cam} _.
Arguments camParams {Led Cam} _.

(** Modelled from the spec: [TrackingSystem.h], [TrackedBody.h],
    [TrackedBodyTarget.h] and the camera parameters are not among the
    sources. Following section 6, the per-frame update takes the image data
    and changes the state of the tracking system; whether the body has a
    pose estimate and its pose are read from that state; the RANSAC routine
    of the target (which is part of the tracking system) answers with
    success and a position and orientation, or with failure. *)
Class TrackerRuntime {lib : TrackerLib} {tools : CSVTools} : Type := {
  CameraParameters : Type;
  Isometry3d : Type;
  updateBodiesFromVideoData :
    TrackingSystem -> ImageProcessingOutput LedMeasurement CameraParameters ->
    TrackingSystem;
  hasPoseEstimate : TrackingSystem -> bool;
  getIsometry : TrackingSystem -> Isometry3d;
  uncalibratedRANSACPoseEstimateFromLeds :
    TrackingSystem -> CameraParameters ->
    TrackingSystem * option (Vector3d * Quaterniond)
}.

Module MainAlgoUnderStudy.
Section Defs.
Context {lib : TrackerLib} {tools : CSVTools} {rt : TrackerRuntime}.

(** [pose] is indeterminate until a row gives one. *)
Record t : Type := mk {
  gotPose : bool;
  pose : option Isometry3d
}.

Definition new : t := mk false None.

(** [MainAlgoUnderStudy::operator()]: the strategy and the tracking system
    after the row. *)
Definition call (self : t) (cam : CameraParameters)
    (system : TrackingSystem)
    (row : TimestampedMeasurements) : t * TrackingSystem :=
  let system :=
    updateBodiesFromVideoData system
      (mkImageProcessingOutput (tv row) (measurements row) cam) in
  let gotPose := hasPoseEstimate system in
  (mk gotPose (if gotPose then Some (getIsometry system) else pose self),
   system).

Definition havePose (self : t) : bool := gotPose self.
Definition getPose (self : t) : option Isometry3d := pose self.

End Defs.
End MainAlgoUnderStudy.

Section Replay.
Context {lib : TrackerLib} {tools : CSVTools} {filters : EigenFilters}
        {rt : TrackerRuntime}.

(** [makeImageOutputDataFromRow] *)
Definition makeImageOutputDataFromRow (row : TimestampedMeasurements)
    (cam : CameraParameters)
  : ImageProcessingOutput LedMeasurement CameraParameters :=
  mkImageProcessingOutput (tv row) (measurements row) cam.

(** [RansacOneEuro::operator()] with the call of the RANSAC routine that
    gives it its answer. *)
Definition RansacOneEuro_on (self : RansacOneEuro) (cam : CameraParameters)
    (system : TrackingSystem) (row : TimestampedMeasurements)
  : RansacOneEuro * TrackingSystem :=
  let '(system, gotRansac) :=
    uncalibratedRANSACPoseEstimateFromLeds system cam in
  ((RansacOneEuro_call self gotRansac row).1, system).

(** The state of a replay: the tracking system and the two strategies. *)
Record ReplayState : Type := mkReplayState {
  replay_system : TrackingSystem;
  mainAlgo : MainAlgoUnderStudy.t;
  ransacOneEuro : RansacOneEuro
}.

(** The body of the [for (auto const &rowPtr : data)] loop of [main]. *)
Definition replay_row (cam : CameraParameters) (st : ReplayState)
    (row : TimestampedMeasurements) : ReplayState :=
  let '(mainAlgo, system) :=
    MainAlgoUnderStudy.call (mainAlgo st) cam (replay_system st) row in
  let '(ransacOneEuro, system) :=
    RansacOneEuro_on (ransacOneEuro st) cam system row in
  mkReplayState system mainAlgo ransacOneEuro.

Definition replay (cam : CameraParameters) (st : ReplayState)
    (data : list TimestampedMeasurements) : ReplayState :=
  foldl (replay_row cam) st data.

(** [main], up to the prompt that ends it: what the loader printed and the
    state the replay ends in. [cam] is
    [getHDKCameraParameters().createUndistortedVariant()]. *)
Definition main (fs : string -> option (list string))
    (cam : CameraParameters) : list Diagnostic * ReplayState :=
  let '(data, out) := loadData fs "augmented-blobs.csv" in
  let params := ConfigParams_new in
  let x : ParamVec := [# 4.14e-6; 1e-2; 0; 5e-2]%float in
  let params := updateConfigFromVec params x in
  let system := makeHDKTrackingSystem params in
  (out,
   replay cam
     (mkReplayState system MainAlgoUnderStudy.new RansacOneEuro_new) data).

End Replay.

(** ** What the strategies and the configuration are compared with *)
Section Readings.
Context {lib : TrackerLib} {tools : CSVTools} {filters : EigenFilters}.

(** The time steps a run of the RANSAC strategy is expected to feed its
    filter: nothing on a failed row, 1 on the first successful row, and the
    time since the successful row before on every other. [prev] is the
    timestamp of the successful row before, if there was one. *)
Fixpoint dtTrace (prev : option TimeValue)
    (rows : list (option (Vector3d * Quaterniond) * TimestampedMeasurements))
  : list (option double) :=
  match rows with
  | [] => []
  | (None, _) :: rest => None :: dtTrace prev rest
  | (Some _, row) :: rest =>
      Some (match prev with
            | None => 1%float
            | Some t => osvrTimeValueDurationSeconds (tv row) t
            end)
      :: dtTrace (Some (tv row)) rest
  end.

(** The pose filter a run of the RANSAC strategy is expected to leave:
    [filter] updated, for each successful row in turn, with the time step
    of [dtTrace] and the position and orientation RANSAC gave. *)
Fixpoint filterBy (prev : option TimeValue) (filter : PoseFilter)
    (rows : list (option (Vector3d * Quaterniond) * TimestampedMeasurements))
  : PoseFilter :=
  match rows with
  | [] => filter
  | (None, _) :: rest => filterBy prev filter rest
  | (Some (pos, quat), row) :: rest =>
      filterBy (Some (tv row))
        (PoseFilter_filter filter
           (match prev with
            | None => 1%float
            | Some t => osvrTimeValueDurationSeconds (tv row) t
            end)
           pos quat)
        rest
  end.

(** The rows on which RANSAC succeeds. *)
Definition successes
    (rows : list (option (Vector3d * Quaterniond) * TimestampedMeasurements))
  : list (option (Vector3d * Quaterniond) * TimestampedMeasurements) :=
  filter (fun r => is_Some r.1) rows.

(** The parameter vector read back from a configuration. *)
Definition paramVecOfConfig (config : ConfigParams) : ParamVec :=
  [# processNoiseAutocorrelation config !!! 0%fin;
     processNoiseAutocorrelation config !!! 3%fin;
     beaconProcessNoise config;
     measurementVarianceScaleFactor config ].

End Readings.

(** The values that make no triple: what [triples] leaves at the end. *)
Fixpoint leftover {A : Type} (l : list A) : list A :=
  match l with
  | _ :: _ :: _ :: rest => leftover rest
  | _ => l
  end.

Section Printed.
Context {tools : CSVTools}.

(** The lines reported as gone wrong, and the blob counts reported, in the
    order they were printed. *)
Definition wentWrong (out : list Diagnostic) : list string :=
  omap (fun d => match d with RowWentWrong l => Some l | _ => None end) out.

Definition blobCounts (out : list Diagnostic) : list nat :=
  omap (fun d => match d with RowHasBlobs n => Some n | _ => None end) out.

Definition totals (out : list Diagnostic) : list nat :=
  omap (fun d => match d with TotalRows n => Some n | _ => None end) out.

(** The measurements of a row all carry the image size. *)
Definition sized (r : TimestampedMeasurements) : Prop :=
  Forall (fun m => led_imageSize m = IMAGE_SIZE) (measurements r).

End Printed.

(** ** Sample collaborators

    Concrete stand-ins for the collaborators, to run the tool on sample
    input: a comma tokenizer, a reader of optionally signed decimal
    integers, filters that record what they are fed, and an optimizer that
    answers with its initial radius. *)
Module Sample.

Fixpoint split_on (sep : ascii) (s : string) : list string :=
  match s with
  | EmptyString => [EmptyString]
  | String c s' =>
      if Ascii.eqb c sep then EmptyString :: split_on sep s'
      else
        match split_on sep s' with
        | [] => [String c EmptyString]
        | f :: fs => String c f :: fs
        end
  end.

Definition fields (line : string) : list string :=
  match line with
  | EmptyString => []
  | _ => split_on "," line
  end.

Definition digit (c : ascii) : option Z :=
  let n := Z.of_N (N_of_ascii c) in
  if (48 <=? n) && (n <=? 57) then Some (n - 48) else None.

Fixpoint digits (s : string) (acc : Z) : option Z :=
  match s with
  | EmptyString => Some acc
  | String c s' => d ← digit c; digits s' (10 * acc + d)
  end.

Definition read_Z (s : string) : option Z :=
  match s with
  | EmptyString => None
  | String "-" EmptyString => None
  | String "-" s' => Z.opp <$> digits s' 0
  | _ => digits s 0
  end.

Definition double_of_Z (z : Z) : double :=
  if z <? 0 then PrimFloat.opp (PrimFloat.of_uint63 (Uint63.of_Z (- z)))
  else PrimFloat.of_uint63 (Uint63.of_Z z).

Definition read_double (s : string) : option double :=
  double_of_Z <$> read_Z s.

(** Drops the carriage returns and line feeds that end a line. *)
Fixpoint clean (s : string) : string :=
  match s with
  | EmptyString => EmptyString
  | String c s' =>
      match clean s' with
      | EmptyString =>
          if Ascii.eqb c "013" || Ascii.eqb c "010" then EmptyString
          else String c EmptyString
      | t => String c t
      end
  end.

Definition tools : CSVTools := {|
  float32 := double;
  fieldsOf := fields;
  getFieldAs_double := read_double;
  getFieldAs_float := read_double;
  getField_seconds := read_Z;
  getField_microseconds := read_Z;
  cleanLine := clean
|}.

Definition duration (a b : TimeValue) : double :=
  PrimFloat.add
    (double_of_Z (default 0 (seconds a) - default 0 (seconds b)))
    (PrimFloat.div
       (double_of_Z (default 0 (microseconds a)
                     - default 0 (microseconds b)))
       1000000%float).

Definition filters : EigenFilters := {|
  OneEuroFilter_Vector3d := list (double * Vector3d);
  OneEuroFilter_Quaterniond := list (double * Quaterniond);
  OneEuroFilter_Vector3d_new := [];
  OneEuroFilter_Quaterniond_new := [];
  filter_Vector3d := fun f dt x => (dt, x) :: f;
  filter_Quaterniond := fun f dt q => (dt, q) :: f;
  getState_Vector3d := fun f => default Vector3d_new (snd <$> head f);
  getState_Quaterniond := fun f => default Quaterniond_new (snd <$> head f);
  osvrTimeValueDurationSeconds := duration
|}.

Definition lib : TrackerLib := {|
  ConfigRest := unit;
  ConfigRest_default := tt;
  processNoiseAutocorrelation_default :=
    [# 0; 0; 0; 0; 0; 0]%float;
  beaconProcessNoise_default := 0%float;
  measurementVarianceScaleFactor_default := 1%float;
  TrackingSystem := unit;
  TrackedBodyTarget := unit;
  makeHDKTrackingSystem_with := fun _ _ _ _ => tt;
  getTarget := fun _ _ _ => tt
|}.

(** An optimizer that takes one step of the initial radius along every
    axis and answers with the objective there. *)
Definition probe : Newuoa := {|
  newuoa := fun n f dim npt x rhobeg rhoend maxfun w =>
    let x' := vmap (fun xi => PrimFloat.add xi rhobeg) x in
    (f dim x', x')
|}.

(** A two-line log: the header and one well-formed data line without
    blobs. *)
Definition header : string :=
  "refx,refy,refz,refqw,refqx,refqy,refqz,sec,usec".
Definition line1 : string := "1,2,3,1,0,0,0,10,20".
(** One blob and two more fields, the last of which is no number. *)
Definition line2 : string := "1,2,3,1,0,0,0,10,20,5,6,7,8,x".
(** Two blobs and one field left over. *)
Definition line3 : string := "4,5,6,1,0,0,0,11,30,1,2,3,4,5,6,7".
(** The seconds field is no number. *)
Definition line4 : string := "4,5,6,1,0,0,0,soon,30,1,2,3".

Definition disk (content : list string) (fn : string)
  : option (list string) :=
  if decide (fn = "augmented-blobs.csv") then Some content else None.


(** A tracking system that counts the frames it is given, has a pose on
    every frame with at least one blob, and whose RANSAC succeeds on odd
    frame counts. *)
Definition counting_lib : TrackerLib := {|
  ConfigRest := unit;
  ConfigRest_default := tt;
  processNoiseAutocorrelation_default :=
    [# 0; 0; 0; 0; 0; 0]%float;
  beaconProcessNoise_default := 0%float;
  measurementVarianceScaleFactor_default := 1%float;
  TrackingSystem := nat * bool;
  TrackedBodyTarget := unit;
  makeHDKTrackingSystem_with := fun _ _ _ _ => (0%nat, false);
  getTarget := fun _ _ _ => tt
|}.

Definition count_frame (system : nat * bool)
    (image : ImageProcessingOutput (@LedMeasurement tools) unit)
  : nat * bool :=
  (S system.1, match ledMeasurements image with [] => false | _ => true end).

Definition ransac_on_odd (system : nat * bool) (cam : unit)
  : (nat * bool) * option (Vector3d * Quaterniond) :=
  (system,
   if Nat.odd system.1
   then Some ([Some 0%float; Some 0%float; Some 1%float],
              mkQuaterniond (Some 1%float) (Some 0%float) (Some 0%float)
                            (Some 0%float))
   else None).

Definition runtime : @TrackerRuntime counting_lib tools :=
  @Build_TrackerRuntime counting_lib tools unit nat
    count_frame snd fst ransac_on_odd.

End Sample.

(** * Properties *)

(** ** The loader *)
Section LoaderFacts.
Context {tools : CSVTools}.

Implicit Types (self : LoadRow) (fields : list string).

Lemma size_t_incr_small n :
  0 <= n < size_t_max - 1 -> size_t_incr n = n + 1.
Proof. intros Hn. unfold size_t_incr. apply Z.mod_small. lia. Qed.

(** [ok] is only ever set. *)
Lemma LoadRow_call_ok_mono self strField :
  ok (row_ self) = true ->
  ok (row_ (LoadRow_call self strField).1) = true.
Proof.
  intros Hok. unfold LoadRow_call, store_xlate, store_rot, push_piece.
  repeat (case_match; simpl; try done).
Qed.

Lemma iterateFields_from_ok_mono fields self :
  ok (row_ self) = true ->
  ok (row_ (iterateFields_from self fields)) = true.
Proof.
  revert self. induction fields as [|f fields IH]; intros self Hok; [done|].
  simpl. pose proof (LoadRow_call_ok_mono self f Hok) as Hstep.
  destruct (LoadRow_call self f) as [self' cont]. simpl in Hstep.
  destruct cont; auto.
Qed.

(** Computes the field counter of a goal. *)
Ltac bump_field :=
  repeat match goal with
    | |- context [size_t_incr ?n] =>
        let v := eval vm_compute in (size_t_incr n) in
        change (size_t_incr n) with v
    end.

(** One field: either the line is over, or the field cannot be read, or
    the walk goes on. *)
Ltac read_field read :=
  match goal with
  | fields : list string |- _ =>
      destruct fields as [|? fields]; [reflexivity|];
      cbn [nextField iterateFields_from mbind option_bind];
      unfold LoadRow_call; cbn [field_ row_]; bump_field;
      destruct (read _); [|reflexivity];
      cbn;
      lazymatch goal with
      | |- context [iterateFields_from ?st fields] =>
          let st' := eval cbv in st in change st with st'
      end
  end.

Lemma required_cases fields :
  match requiredFields fields with
  | Some (r, trailing) =>
      iterateFields_from (LoadRow_new TimestampedMeasurements_new) fields
      = iterateFields_from (afterRequired r) trailing
  | None =>
      ok (row_ (iterateFields_from
                  (LoadRow_new TimestampedMeasurements_new) fields)) = false
  end.
Proof.
  unfold requiredFields.
  do 7 read_field getFieldAs_double.
  read_field getField_seconds.
  read_field getField_microseconds.
  reflexivity.
Qed.

Lemma loadLine_ok line : ok (row_ (loadLine line)) = readsRequired line.
Proof.
  unfold loadLine, iterateFields, readsRequired.
  pose proof (required_cases (fieldsOf line)) as Hc.
  destruct (requiredFields (fieldsOf line)) as [[r trailing]|].
  - rewrite Hc, iterateFields_from_ok_mono by done.
    symmetry. apply bool_decide_eq_true. by eexists.
  - rewrite Hc. symmetry. apply bool_decide_eq_false.
    by intros [? ?].
Qed.

(** Past the ninth field every field is a blob piece, as long as the
    counter does not wrap. *)
Lemma LoadRow_call_blob self strField :
  9 <= field_ self < size_t_max - 1 ->
  LoadRow_call self strField =
    let self' :=
      mkLoadRow (row_ self) (field_ self + 1) (measurementPieces_ self)
                (outOfRange_ self) in
    match getFieldAs_float strField with
    | None => (self', false)
    | Some val => (push_piece self' val, true)
    end.
Proof.
  intros Hf. unfold LoadRow_call. rewrite size_t_incr_small by lia.
  cbn [field_].
  destruct (Z.leb_spec (field_ self + 1) 3); [lia|].
  destruct (Z.leb_spec (field_ self + 1) 7); [lia|].
  destruct (Z.eqb_spec (field_ self + 1) 8); [lia|].
  destruct (Z.eqb_spec (field_ self + 1) 9); [lia|].
  reflexivity.
Qed.

(** The blob fields only add measurements: the triples of the pieces at
    hand and the values read, up to the end of the line or to the first
    field that cannot be read ([stop]). *)
Lemma blobs_from fields : forall self vs stop,
  Forall2 (fun f v => getFieldAs_float f = Some v) fields vs ->
  head stop ≫= getFieldAs_float = None ->
  9 <= field_ self ->
  field_ self + Z.of_nat (length (fields ++ stop)) < size_t_max ->
  (length (measurementPieces_ self) < 3)%nat ->
  row_ (iterateFields_from self (fields ++ stop)) =
    mkRow (tv (row_ self)) (xlate (row_ self)) (rot (row_ self))
          (measurements (row_ self)
           ++ map ledOf (triples (measurementPieces_ self ++ vs)))
          (ok (row_ self)).
Proof.
  induction fields as [|f fields IH]; intros self vs stop Hvs Hstop Hlo Hhi Hp.
  - inversion Hvs; subst. rewrite app_nil_r. cbn [app] in *.
    assert (Hrow : row_ (iterateFields_from self stop) = row_ self).
    { destruct stop as [|bad rest]; [done|].
      cbn [iterateFields_from length head mbind option_bind] in *.
      rewrite LoadRow_call_blob by lia. cbn zeta. by rewrite Hstop. }
    rewrite Hrow.
    destruct self as [[] ? pieces ?]; simpl in *.
    destruct pieces as [|a [|b [|c ?]]]; simpl in *;
      try lia; by rewrite app_nil_r.
  - inversion Hvs as [|? v ? vs' Hf Hrest]; subst.
    cbn [iterateFields_from length app] in *.
    rewrite LoadRow_call_blob by lia. cbn zeta. rewrite Hf.
    destruct self as [row fld pieces oor]; cbn [row_ field_
      measurementPieces_ outOfRange_] in *.
    destruct pieces as [|a [|b [|c ?]]]; simpl in Hp; try lia;
      unfold push_piece; cbn [measurementPieces_ app row_ field_
                              outOfRange_];
      rewrite (IH _ vs' stop)
        by (cbn [field_ measurementPieces_ length]; (done || lia));
      cbn [row_ measurementPieces_ push_measurement tv xlate rot ok
           measurements app triples map ledOf]; try reflexivity.
    by rewrite <- app_assoc.
Qed.

Lemma triples_length {A : Type} (l : list A) :
  length (triples l) = (length l / 3)%nat.
Proof.
  assert (H : forall n (l : list A), (length l < n)%nat ->
              length (triples l) = (length l / 3)%nat).
  { induction n as [|n IH]; intros k Hk; [lia|].
    destruct k as [|a [|b [|c rest]]]; try reflexivity.
    cbn [triples length]. rewrite IH by (simpl in Hk; lia).
    change (S (S (S (length rest)))) with (1 * 3 + length rest)%nat.
    by rewrite Nat.div_add_l. }
  apply (H (S (length l))). lia.
Qed.

Lemma requiredFields_length fields r trailing :
  requiredFields fields = Some (r, trailing) ->
  length fields = (9 + length trailing)%nat.
Proof.
  unfold requiredFields. intros H.
  do 7 (destruct fields as [|? fields]; [discriminate|];
        cbn [nextField mbind option_bind] in H;
        destruct (getFieldAs_double _); [|discriminate];
        cbn [mbind option_bind] in H).
  destruct fields as [|? fields]; [discriminate|].
  cbn [nextField mbind option_bind] in H.
  destruct (getField_seconds _); [|discriminate].
  cbn [mbind option_bind] in H.
  destruct fields as [|? fields]; [discriminate|].
  cbn [nextField mbind option_bind] in H.
  destruct (getField_microseconds _); [|discriminate].
  cbn [mbind option_bind] in H.
  injection H as _ ->. reflexivity.
Qed.

(** The record of a missed store is never cleared. *)
Lemma LoadRow_call_outOfRange_mono self strField :
  outOfRange_ self = true ->
  outOfRange_ (LoadRow_call self strField).1 = true.
Proof.
  intros Hoor. unfold LoadRow_call, store_xlate, store_rot, push_piece.
  repeat (case_match; simpl; try done).
Qed.

Lemma iterateFields_from_outOfRange_mono fields self :
  outOfRange_ self = true ->
  outOfRange_ (iterateFields_from self fields) = true.
Proof.
  revert self. induction fields as [|f fields IH]; intros self Hoor; [done|].
  simpl. pose proof (LoadRow_call_outOfRange_mono self f Hoor) as Hstep.
  destruct (LoadRow_call self f) as [self' cont]. simpl in Hstep.
  destruct cont; auto.
Qed.

(** Every line that is accepted went through a store outside the
    translation vector. *)
Lemma accepted_line_stored_out_of_range line :
  readsRequired line = true -> outOfRange_ (loadLine line) = true.
Proof.
  unfold readsRequired, loadLine, iterateFields.
  intros [[r trailing] Hr]%bool_decide_eq_true.
  pose proof (required_cases (fieldsOf line)) as Hc. rewrite Hr in Hc.
  rewrite Hc. by apply iterateFields_from_outOfRange_mono.
Qed.

(** The loop keeps the rows it has and adds the row of each line that
    reads its required fields. *)
Lemma load_step_rows dataLine ret out :
  (load_step dataLine ret out).1 =
    ret ++ map (fun l => row_ (loadLine l))
               (filter (fun l => readsRequired l) [dataLine]).
Proof.
  unfold load_step. rewrite loadLine_ok.
  destruct (readsRequired dataLine) eqn:Hr.
  - rewrite filter_cons_True by (by apply Is_true_true_2). reflexivity.
  - rewrite filter_cons_False by (by apply Is_true_false_2). simpl.
    by rewrite app_nil_r.
Qed.

Lemma load_loop_rows csvFile : forall dataLine ret out,
  (load_loop csvFile dataLine ret out).1 =
    ret ++ map (fun l => row_ (loadLine l))
               (filter (fun l => readsRequired l)
                       (dataLine :: map cleanLine csvFile)).
Proof.
  induction csvFile as [|next csvFile IH]; intros dataLine ret out;
    cbn [load_loop map];
    pose proof (load_step_rows dataLine ret out) as Hstep;
    destruct (load_step dataLine ret out) as [ret' out'];
    cbn [fst] in *.
  - exact Hstep.
  - rewrite IH, Hstep, <- app_assoc, <- map_app.
    change (dataLine :: cleanLine next :: map cleanLine csvFile)
      with ([dataLine] ++ cleanLine next :: map cleanLine csvFile).
    by rewrite filter_app.
Qed.

(** The blob fields leave the reference pose and the timestamp alone. *)
Lemma blob_phase_keeps_reference fields : forall self,
  9 <= field_ self ->
  field_ self + Z.of_nat (length fields) < size_t_max ->
  tv (row_ (iterateFields_from self fields)) = tv (row_ self)
  /\ xlate (row_ (iterateFields_from self fields)) = xlate (row_ self)
  /\ rot (row_ (iterateFields_from self fields)) = rot (row_ self).
Proof.
  induction fields as [|f fields IH]; intros self Hlo Hhi; [done|].
  cbn [iterateFields_from length] in *.
  rewrite LoadRow_call_blob by lia. cbn zeta.
  destruct (getFieldAs_float f) as [val|]; [|done].
  destruct self as [row fld pieces oor];
    cbn [row_ field_ measurementPieces_ outOfRange_] in *.
  destruct pieces as [|a [|b [|c rest]]];
    unfold push_piece; try (destruct rest); simpl;
    match goal with
    | |- context [iterateFields_from ?st fields] =>
        destruct (IH st) as (-> & -> & ->);
        first [cbn [field_]; lia | repeat split; reflexivity]
    end.
Qed.

(** X6: every accepted row has its first field in translation coefficient 1,
    its second in coefficient 2, nothing in coefficient 0 and the third
    field nowhere; fields 3 to 6 are the quaternion in (w, x, y, z) order
    and fields 7 and 8 the timestamp. *)
Lemma accepted_row_reference dataLine r trailing :
  requiredFields (fieldsOf dataLine) = Some (r, trailing) ->
  Z.of_nat (length (fieldsOf dataLine)) < size_t_max ->
  xlate (row_ (loadLine dataLine)) = [None; Some (ref_x r); Some (ref_y r)]
  /\ rot (row_ (loadLine dataLine))
     = mkQuaterniond (Some (ref_qw r)) (Some (ref_qx r)) (Some (ref_qy r))
                     (Some (ref_qz r))
  /\ tv (row_ (loadLine dataLine))
     = mkTimeValue (Some (ref_sec r)) (Some (ref_usec r)).
Proof.
  intros Hreq Hlen. unfold loadLine, iterateFields.
  pose proof (required_cases (fieldsOf dataLine)) as Hc.
  rewrite Hreq in Hc. rewrite Hc.
  apply requiredFields_length in Hreq.
  destruct (blob_phase_keeps_reference trailing (afterRequired r))
    as (-> & -> & ->); first [simpl; lia | done].
Qed.

(** X7: a blob field that cannot be read ends the walk over the line: the row
    stays accepted, with the measurements completed before that field. *)
Lemma unreadable_blob_field_keeps_row dataLine r good bad rest vs :
  requiredFields (fieldsOf dataLine) = Some (r, good ++ bad :: rest) ->
  mapM getFieldAs_float good = Some vs ->
  getFieldAs_float bad = None ->
  Z.of_nat (length (fieldsOf dataLine)) < size_t_max ->
  ok (row_ (loadLine dataLine)) = true
  /\ measurements (row_ (loadLine dataLine)) = map ledOf (triples vs).
Proof.
  intros Hreq Hvs Hbad Hlen. split.
  - rewrite loadLine_ok. apply bool_decide_eq_true. by eexists.
  - unfold loadLine, iterateFields.
    pose proof (required_cases (fieldsOf dataLine)) as Hc.
    rewrite Hreq in Hc. rewrite Hc.
    apply requiredFields_length in Hreq.
    rewrite blobs_from with (vs := vs).
    + reflexivity.
    + by apply mapM_Some_1.
    + exact Hbad.
    + simpl. lia.
    + simpl. lia.
    + simpl. lia.
Qed.

(** C3 (as amended): the log holds, in the order of the file, the rows
    of exactly those data lines whose nine required fields are all there
    and can all be read. A line that fails in one of them is left out and
    the lines after it are still loaded; the fields after the ninth have
    no say in whether the row is kept. *)
Theorem load_keeps_lines_reading_required
    (fs : string -> option (list string)) (fn header : string)
    (lines : list string) :
  fs fn = Some (header :: lines) ->
  cleanLine header <> "" ->
  (loadData fs fn).1 =
    map rowOf (filter (fun l => readsRequired (cleanLine l)) lines).
Proof.
  intros Hfile Hheader. unfold loadData. rewrite Hfile.
  destruct (decide (cleanLine header = "")) as [|_]; [done|].
  destruct lines as [|first rest]; [done|].
  rewrite load_loop_rows. cbn [app].
  change (cleanLine first :: map cleanLine rest)
    with (map cleanLine (first :: rest)).
  generalize (first :: rest). intros l. unfold rowOf.
  induction l as [|x l IH]; [done|]. cbn [map].
  destruct (readsRequired (cleanLine x)) eqn:Hr.
  - rewrite !filter_cons_True by (by apply Is_true_true_2).
    cbn [map]. by rewrite IH.
  - by rewrite !filter_cons_False by (by apply Is_true_false_2).
Qed.

(** C7: in an accepted row whose trailing fields can all be read, the
    measurements are the consecutive triples of the trailing values, in
    the order of the line; there are floor(trailing / 3) of them, and one
    or two values left over make no measurement and leave the row
    accepted. *)
Theorem blobs_in_triples (dataLine : string) (r : Required)
    (trailing : list string) (vs : list float32) :
  requiredFields (fieldsOf dataLine) = Some (r, trailing) ->
  mapM getFieldAs_float trailing = Some vs ->
  Z.of_nat (length (fieldsOf dataLine)) < size_t_max ->
  ok (row_ (loadLine dataLine)) = true
  /\ measurements (row_ (loadLine dataLine)) = map ledOf (triples vs)
  /\ length (measurements (row_ (loadLine dataLine)))
     = (length trailing / 3)%nat.
Proof.
  intros Hreq Hvs Hlen.
  assert (Hrow : measurements (row_ (loadLine dataLine))
                 = map ledOf (triples vs)).
  { unfold loadLine, iterateFields.
    pose proof (required_cases (fieldsOf dataLine)) as Hc.
    rewrite Hreq in Hc. rewrite Hc.
    apply requiredFields_length in Hreq.
    rewrite <- (app_nil_r trailing).
    rewrite blobs_from with (vs := vs).
    - reflexivity.
    - by apply mapM_Some_1.
    - reflexivity.
    - simpl. lia.
    - rewrite app_nil_r. simpl. lia.
    - simpl. lia. }
  split; [|split].
  - rewrite loadLine_ok. apply bool_decide_eq_true. by eexists.
  - exact Hrow.
  - rewrite Hrow, length_map, triples_length.
    apply mapM_Some_1, Forall2_length in Hvs. by rewrite Hvs.
Qed.

(** C10: a file that cannot be opened, an empty file and a file whose
    header line is empty all give the empty log and one diagnostic,
    whatever lines follow the header. *)
Theorem unusable_file_gives_empty_log
    (fs : string -> option (list string)) (fn : string) :
  (fs fn = None
   \/ fs fn = Some []
   \/ exists header rest,
        fs fn = Some (header :: rest) /\ cleanLine header = "") ->
  loadData fs fn =
    ([], [match fs fn with
          | None => CouldNotOpen fn
          | Some _ => HeaderRowEmpty
          end]).
Proof.
  unfold loadData.
  intros [-> | [-> | (header & rest & -> & Hempty)]]; [done..|].
  by destruct (decide (cleanLine header = "")).
Qed.

End LoaderFacts.

(** *** The loader on the sample log *)

(** C1: the well-formed line [1,2,3,1,0,0,0,10,20] is loaded with its first
    field in translation coefficient 1 and its second in coefficient 2;
    coefficient 0 is never written and the third field is in no coefficient.
    Quaternion and timestamp are as the line gives them. *)
Theorem first_field_lands_in_coefficient_1 :
  (@loadData Sample.tools (Sample.disk [Sample.header; Sample.line1])
             "augmented-blobs.csv").1
  = [ @mkRow Sample.tools
        (mkTimeValue (Some 10) (Some 20))
        [None; Some 1%float; Some 2%float]
        (mkQuaterniond (Some 1%float) (Some 0%float) (Some 0%float)
                       (Some 0%float))
        [] true ].
Proof. vm_compute. reflexivity. Qed.

(** C2: on the line [1,2,3,1,0,0,0,10,20] the store of the third field
    uses index 3 on the three-coefficient vector, which is outside it, and
    the functor records the miss. *)
Theorem third_translation_store_out_of_range :
  let self2 :=
    @iterateFields_from Sample.tools
      (LoadRow_new TimestampedMeasurements_new) ["1"; "2"]%string in
  let self3 := (@LoadRow_call Sample.tools self2 "3").1 in
  field_ self3 = 3
  /\ Vector3d_set (xlate (row_ self2)) (field_ self3) 3%float = None
  /\ outOfRange_ self3 = true
  /\ outOfRange_ (@loadLine Sample.tools Sample.line1) = true.
Proof. vm_compute. repeat split; reflexivity. Qed.

(** C3, as stated, fails: the last field of
    [1,2,3,1,0,0,0,10,20,5,6,7,8,x] is a blob field that cannot be read, and
    the row is in the log all the same, with the one blob completed before
    it. *)
Lemma blob_field_failure_keeps_row :
  Sample.fields Sample.line2 !! 13%nat = Some "x"%string
  /\ @getFieldAs_float Sample.tools "x" = None
  /\ map (fun row => (ok row, length (measurements row)))
         (@loadData Sample.tools
            (Sample.disk [Sample.header; Sample.line2])
            "augmented-blobs.csv").1
     = [(true, 1%nat)].
Proof. vm_compute. repeat split; reflexivity. Qed.

Lemma load_keeps_lines_reading_required_witness :
  (@loadData Sample.tools
     (Sample.disk [Sample.header; Sample.line1; Sample.line4; Sample.line3])
     "augmented-blobs.csv").1
  = map (@rowOf Sample.tools)
        (filter (fun l => @readsRequired Sample.tools
                            (@cleanLine Sample.tools l))
                [Sample.line1; Sample.line4; Sample.line3]).
Proof.
  apply (@load_keeps_lines_reading_required Sample.tools _ _ Sample.header).
  - reflexivity.
  - vm_compute. discriminate.
Defined.

Lemma blobs_in_triples_witness :
  ok (row_ (@loadLine Sample.tools Sample.line3)) = true
  /\ measurements (row_ (@loadLine Sample.tools Sample.line3))
     = map (@ledOf Sample.tools)
           (triples [1; 2; 3; 4; 5; 6; 7]%float)
  /\ length (measurements (row_ (@loadLine Sample.tools Sample.line3)))
     = (length ["1"; "2"; "3"; "4"; "5"; "6"; "7"]%string / 3)%nat.
Proof.
  eapply (@blobs_in_triples Sample.tools Sample.line3).
  - vm_compute. reflexivity.
  - vm_compute. reflexivity.
  - vm_compute. reflexivity.
Defined.

Lemma unusable_file_gives_empty_log_witness :
  @loadData Sample.tools (Sample.disk [""%string; Sample.line1])
            "augmented-blobs.csv"
  = ([], [HeaderRowEmpty]).
Proof.
  apply (@unusable_file_gives_empty_log Sample.tools
           (Sample.disk [""%string; Sample.line1]) "augmented-blobs.csv").
  right. right. exists ""%string, [Sample.line1]. split; reflexivity.
Defined.

(** ** Configuration and optimizer *)
Section OptimizerFacts.
Context {lib : TrackerLib} {opt : Newuoa}.

(** C4: the parameter vector [a, b, c, d] gives a configuration whose
    process-noise entries 0, 1, 2 are [a] and 3, 4, 5 are [b], whose
    beacon process noise is [c] and whose measurement-variance scale is
    [d]. *)
Theorem updateConfigFromVec_maps (params : ConfigParams) (a b c d : double) :
  let config := updateConfigFromVec params [# a; b; c; d] in
  processNoiseAutocorrelation config !!! 0%fin = a
  /\ processNoiseAutocorrelation config !!! 1%fin = a
  /\ processNoiseAutocorrelation config !!! 2%fin = a
  /\ processNoiseAutocorrelation config !!! 3%fin = b
  /\ processNoiseAutocorrelation config !!! 4%fin = b
  /\ processNoiseAutocorrelation config !!! 5%fin = b
  /\ beaconProcessNoise config = c
  /\ measurementVarianceScaleFactor config = d.
Proof.
  destruct params as [noise ? ? ?]. revert noise.
  intros noise. inv_vec noise. intros. cbn.
  repeat split; reflexivity.
Qed.

(** IEEE comparison is antisymmetric where it is defined. *)
Lemma SFcompare_antisym (f1 f2 : spec_float) :
  SFcompare f2 f1 = CompOpp <$> SFcompare f1 f2.
Proof.
  destruct f1 as [s1|s1| |s1 m1 e1], f2 as [s2|s2| |s2 m2 e2];
    try destruct s1; try destruct s2; try reflexivity;
    cbn [SFcompare fmap option_fmap option_map]; f_equal;
    rewrite (Z.compare_antisym e1 e2);
    destruct (e1 ?= e2); cbn [CompOpp]; try reflexivity;
    change (Pos.compare_cont Eq m2 m1) with (Pos.compare m2 m1);
    change (Pos.compare_cont Eq m1 m2) with (Pos.compare m1 m2);
    rewrite (Pos.compare_antisym m1 m2);
    by destruct (Pos.compare m1 m2).
Qed.

Lemma ltb_asym (a b : double) :
  PrimFloat.ltb a b = true -> PrimFloat.ltb b a = false.
Proof.
  rewrite !FloatAxioms.ltb_spec. unfold SFltb. rewrite (SFcompare_antisym (Prim2SF a)).
  by destruct (SFcompare (Prim2SF a) (Prim2SF b)) as [[]|].
Qed.

(** When one radius is greater than the other, or the two are the same
    value, the wrapper gives the same outcome for the pair in either
    order. *)
Lemma ei_newuoa_radius_order {n : nat} (npt : Z) (x : vec double n)
    (a b : double) (maxfun : Z) (f : Z -> vec double n -> double) :
  PrimFloat.ltb a b = true \/ PrimFloat.ltb b a = true \/ a = b ->
  ei_newuoa npt x (a, b) maxfun f = ei_newuoa npt x (b, a) maxfun f.
Proof.
  unfold ei_newuoa. intros [Hab | [Hba | ->]]; [| |reflexivity].
  - by rewrite Hab, (ltb_asym a b Hab).
  - by rewrite Hba, (ltb_asym b a Hba).
Qed.

(** A double above zero is plus infinity or a finite value of positive
    sign. *)
Lemma positive_shape (a : double) :
  PrimFloat.ltb 0%float a = true ->
  Prim2SF a = S754_infinity false
  \/ exists m e, Prim2SF a = S754_finite false m e.
Proof.
  rewrite FloatAxioms.ltb_spec. unfold SFltb.
  change (Prim2SF 0%float) with (S754_zero false).
  destruct (Prim2SF a) as [s|s| |s m e]; cbn [SFcompare]; try done;
    destruct s; try done; eauto.
Qed.

Lemma Prim2SF_inj (a b : double) : Prim2SF a = Prim2SF b -> a = b.
Proof.
  intros H. rewrite <- (SF2Prim_Prim2SF a), <- (SF2Prim_Prim2SF b).
  by rewrite H.
Qed.

(** Two doubles above zero are ordered or the same value. *)
Lemma positive_comparable (a b : double) :
  PrimFloat.ltb 0%float a = true ->
  PrimFloat.ltb 0%float b = true ->
  PrimFloat.ltb a b = true \/ PrimFloat.ltb b a = true \/ a = b.
Proof.
  intros Ha%positive_shape Hb%positive_shape.
  rewrite !FloatAxioms.ltb_spec. unfold SFltb.
  rewrite (SFcompare_antisym (Prim2SF a) (Prim2SF b)).
  assert (Heq : SFcompare (Prim2SF a) (Prim2SF b) = Some Eq -> a = b).
  { intros Hc. apply Prim2SF_inj.
    destruct Ha as [Ha | (m1 & e1 & Ha)], Hb as [Hb | (m2 & e2 & Hb)];
      rewrite Ha, Hb in *; cbn [SFcompare] in Hc; try done.
    destruct (e1 ?= e2) eqn:He; try done.
    apply Z.compare_eq in He. injection Hc as Hm.
    apply Pos.compare_eq in Hm. congruence. }
  destruct (SFcompare (Prim2SF a) (Prim2SF b)) as [[]|] eqn:Hc;
    cbn [fmap option_fmap option_map CompOpp]; auto.
  destruct Ha as [Ha | (m1 & e1 & Ha)], Hb as [Hb | (m2 & e2 & Hb)];
    rewrite Ha, Hb in Hc; cbn [SFcompare] in Hc; done.
Qed.


(** C9: the objective handed to the optimizer is 0 at every candidate
    vector. *)
Theorem objective_is_zero (n : Z) (x : ParamVec) : objective n x = 0%float.
Proof. reflexivity. Qed.

End OptimizerFacts.


(** ** Pose filter and RANSAC strategy *)
Section StrategyFacts.
Context {tools : CSVTools} {filters : EigenFilters}.

(** What is equal to zero or less than zero is [<= 0]. *)
Lemma nonpositive_leb (dt : double) :
  PrimFloat.eqb dt 0%float = true \/ PrimFloat.ltb dt 0%float = true ->
  PrimFloat.leb dt 0%float = true.
Proof.
  rewrite FloatAxioms.eqb_spec, FloatAxioms.ltb_spec, FloatAxioms.leb_spec.
  unfold SFeqb, SFltb, SFleb.
  destruct (SFcompare (Prim2SF dt) (Prim2SF 0%float)) as [[]|];
    intros [?|?]; done.
Qed.

(** C6: a time step that is zero or negative is filtered exactly as the
    time step 1, whatever the position, the orientation and the state of
    the filter. *)
Theorem PoseFilter_filter_clamps (self : PoseFilter) (dt : double)
    (position : Vector3d) (orientation : Quaterniond) :
  PrimFloat.eqb dt 0%float = true \/ PrimFloat.ltb dt 0%float = true ->
  PoseFilter_filter self dt position orientation
  = PoseFilter_filter self 1%float position orientation.
Proof.
  intros Hdt%nonpositive_leb. unfold PoseFilter_filter. by rewrite Hdt.
Qed.

Lemma RansacOneEuro_run_app self rows1 rows2 :
  RansacOneEuro_run self (rows1 ++ rows2) =
    let '(mid, dts1) := RansacOneEuro_run self rows1 in
    let '(final, dts2) := RansacOneEuro_run mid rows2 in
    (final, dts1 ++ dts2).
Proof.
  revert self. induction rows1 as [|[gotRansac row] rows1 IH]; intros self.
  - simpl. by destruct (RansacOneEuro_run self rows2).
  - cbn [RansacOneEuro_run app].
    destruct (RansacOneEuro_call self gotRansac row) as [self' dt].
    rewrite IH.
    destruct (RansacOneEuro_run self' rows1) as [mid dts1].
    by destruct (RansacOneEuro_run mid rows2) as [final dts2].
Qed.

(** Rows on which RANSAC fails feed nothing to the filter and change
    nothing but the pose flag. *)
Lemma RansacOneEuro_run_failed self (failed : list TimestampedMeasurements) :
  RansacOneEuro_run self (map (fun row => (None, row)) failed) =
    (match failed with
     | [] => self
     | _ => mkRansacOneEuro (ransacPoseFilter self) (last self)
                            (isFirst self) false
     end,
     map (fun _ => None) failed).
Proof.
  revert self. induction failed as [|row failed IH]; intros self; [done|].
  cbn [map RansacOneEuro_run RansacOneEuro_call]. rewrite IH.
  by destruct failed.
Qed.

(** C5: the first successful row of a run updates the pose filter with
    [dt = 1]; a row on which RANSAC fails gives no pose and leaves the
    filter, the last timestamp and the first-row flag as they are; and
    after a successful row followed by failed rows only, the next
    successful row updates the pose filter with the time from the earlier
    successful row to it, not from any failed row between them. *)
Theorem RansacOneEuro_dt_from_last_success
    (self : RansacOneEuro)
    (before failed : list TimestampedMeasurements)
    (pos0 pos2 : Vector3d) (quat0 quat2 : Quaterniond)
    (row0 row2 rowF : TimestampedMeasurements) :
  let dt0 :=
    if isFirst self then 1%float
    else osvrTimeValueDurationSeconds (tv row0) (last self) in
  let dt2 := osvrTimeValueDurationSeconds (tv row2) (tv row0) in
  RansacOneEuro_run RansacOneEuro_new
    (map (fun row => (None, row)) before ++ [(Some (pos0, quat0), row0)])
  = (mkRansacOneEuro (PoseFilter_filter PoseFilter_new 1%float pos0 quat0)
                     (tv row0) false true,
     map (fun _ => None) before ++ [Some 1%float])
  /\ RansacOneEuro_call self None rowF
     = (mkRansacOneEuro (ransacPoseFilter self) (last self) (isFirst self)
                        false, None)
  /\ havePose (RansacOneEuro_call self None rowF).1 = false
  /\ last (RansacOneEuro_run self
             ((Some (pos0, quat0), row0)
              :: map (fun row => (None, row)) failed)).1
     = tv row0
  /\ RansacOneEuro_run self
       ((Some (pos0, quat0), row0) :: map (fun row => (None, row)) failed
        ++ [(Some (pos2, quat2), row2)])
     = (mkRansacOneEuro
          (PoseFilter_filter
             (PoseFilter_filter (ransacPoseFilter self) dt0 pos0 quat0)
             dt2 pos2 quat2)
          (tv row2) false true,
        Some dt0 :: map (fun _ => None) failed ++ [Some dt2]).
Proof.
  cbn zeta. split; [|split; [|split; [|split]]].
  - rewrite RansacOneEuro_run_app, RansacOneEuro_run_failed.
    by destruct before.
  - reflexivity.
  - reflexivity.
  - cbn [RansacOneEuro_run RansacOneEuro_call].
    rewrite RansacOneEuro_run_failed. by destruct failed.
  - change ((Some (pos0, quat0), row0)
            :: map (fun row => (None, row)) failed
            ++ [(Some (pos2, quat2), row2)])
      with (((Some (pos0, quat0), row0)
             :: map (fun row => (None, row)) failed)
            ++ [(Some (pos2, quat2), row2)]).
    rewrite RansacOneEuro_run_app.
    cbn [RansacOneEuro_run RansacOneEuro_call].
    rewrite RansacOneEuro_run_failed.
    by destruct failed.
Qed.

End StrategyFacts.

Lemma PoseFilter_filter_clamps_witness :
  @PoseFilter_filter Sample.filters PoseFilter_new (-5)%float
    [Some 1%float; Some 2%float; Some 3%float]
    (mkQuaterniond (Some 1%float) (Some 0%float) (Some 0%float)
                   (Some 0%float))
  = @PoseFilter_filter Sample.filters PoseFilter_new 1%float
      [Some 1%float; Some 2%float; Some 3%float]
      (mkQuaterniond (Some 1%float) (Some 0%float) (Some 0%float)
                     (Some 0%float)).
Proof.
  apply (@PoseFilter_filter_clamps Sample.filters). right. reflexivity.
Defined.

(** * Further properties *)

(** ** The loader, line by line *)
Section LoaderMore.
Context {tools : CSVTools}.

Implicit Types (self : LoadRow) (fields : list string).

(** The log of a file, whatever the file. *)
Lemma loadData_rows_cases (fs : string -> option (list string)) fn :
  (loadData fs fn).1 =
    match fs fn with
    | Some (header :: lines) =>
        if decide (cleanLine header = "") then []
        else map (fun l => row_ (loadLine l))
                 (filter (fun l => readsRequired l) (map cleanLine lines))
    | _ => []
    end.
Proof.
  unfold loadData. destruct (fs fn) as [[|header lines]|]; [done| |done].
  destruct (decide (cleanLine header = "")); [done|].
  destruct lines as [|first rest]; [done|].
  by rewrite load_loop_rows.
Qed.

(** X1: every row of the log is a valid row. *)
Theorem loadData_rows_valid (fs : string -> option (list string)) fn :
  Forall (fun row => ok row = true) (loadData fs fn).1.
Proof.
  rewrite loadData_rows_cases.
  destruct (fs fn) as [[|header lines]|]; [constructor| |constructor].
  destruct (decide (cleanLine header = "")); [constructor|].
  apply Forall_map, Forall_forall. intros l [Hl _]%list_elem_of_filter.
  cbn. rewrite loadLine_ok. by apply Is_true_true_1.
Qed.

Lemma LoadRow_call_sized self strField :
  sized (row_ self) -> sized (row_ (LoadRow_call self strField).1).
Proof.
  intros Hs. unfold LoadRow_call, store_xlate, store_rot, push_piece.
  repeat (case_match; simpl; try done).
  apply Forall_app. split; [done|]. by repeat constructor.
Qed.

Lemma iterateFields_from_sized fields self :
  sized (row_ self) -> sized (row_ (iterateFields_from self fields)).
Proof.
  revert self. induction fields as [|f fields IH]; intros self Hs; [done|].
  simpl. pose proof (LoadRow_call_sized self f Hs) as Hstep.
  destruct (LoadRow_call self f) as [self' cont]. simpl in Hstep.
  destruct cont; auto.
Qed.

(** X2: every measurement of every row of the log is taken against the
    640 by 480 image. *)
Theorem loadData_measurements_image_size
    (fs : string -> option (list string)) fn :
  Forall (fun row =>
            Forall (fun m => led_imageSize m = (640, 480)) (measurements row))
         (loadData fs fn).1.
Proof.
  rewrite loadData_rows_cases.
  destruct (fs fn) as [[|header lines]|]; [constructor| |constructor].
  destruct (decide (cleanLine header = "")); [constructor|].
  apply Forall_map, Forall_forall. intros l _.
  apply (iterateFields_from_sized _ (LoadRow_new TimestampedMeasurements_new)).
  constructor.
Qed.

(** X3: a line with fewer than nine fields is never accepted. *)
Theorem short_line_rejected (dataLine : string) :
  (length (fieldsOf dataLine) < 9)%nat ->
  ok (row_ (loadLine dataLine)) = false.
Proof.
  intros Hshort. rewrite loadLine_ok. unfold readsRequired.
  apply bool_decide_eq_false. intros [[r trailing] Hreq].
  apply requiredFields_length in Hreq. lia.
Qed.

(** What one pass of the loop prints. *)
Lemma load_step_out dataLine ret out :
  (load_step dataLine ret out).2 =
    out
    ++ match measurementPieces_ (loadLine dataLine) with
       | [] => []
       | _ => [LeftoverPieces]
       end
    ++ [if readsRequired dataLine
        then RowHasBlobs (length (measurements (row_ (loadLine dataLine))))
        else RowWentWrong dataLine].
Proof.
  unfold load_step. rewrite loadLine_ok.
  destruct (readsRequired dataLine),
    (measurementPieces_ (loadLine dataLine)); cbn [snd];
    by rewrite ?app_nil_r, <- ?app_assoc.
Qed.

Lemma load_step_printed dataLine ret out :
  let out' := (load_step dataLine ret out).2 in
  wentWrong out'
  = wentWrong out ++ filter (fun l => ¬ readsRequired l) [dataLine]
  /\ blobCounts out'
     = blobCounts out
       ++ map (fun l => length (measurements (row_ (loadLine l))))
              (filter (fun l => readsRequired l) [dataLine])
  /\ totals out' = totals out.
Proof.
  cbn zeta. rewrite load_step_out. unfold wentWrong, blobCounts, totals.
  rewrite !omap_app.
  destruct (readsRequired dataLine) eqn:Hr.
  - rewrite filter_cons_False by (rewrite Hr; by intros []).
    rewrite filter_cons_True by (by apply Is_true_true_2).
    destruct (measurementPieces_ (loadLine dataLine));
      cbn; by rewrite ?app_nil_r.
  - rewrite filter_cons_True by (by apply Is_true_false_2).
    rewrite filter_cons_False by (by apply Is_true_false_2).
    destruct (measurementPieces_ (loadLine dataLine));
      cbn; by rewrite ?app_nil_r.
Qed.

Lemma load_loop_printed csvFile : forall dataLine ret out,
  let res := load_loop csvFile dataLine ret out in
  let lines := dataLine :: map cleanLine csvFile in
  wentWrong res.2
  = wentWrong out ++ filter (fun l => ¬ readsRequired l) lines
  /\ blobCounts res.2
     = blobCounts out
       ++ map (fun l => length (measurements (row_ (loadLine l))))
              (filter (fun l => readsRequired l) lines)
  /\ totals res.2 = totals out ++ [length res.1].
Proof.
  induction csvFile as [|next csvFile IH]; intros dataLine ret out;
    cbn [load_loop map]; cbn zeta;
    pose proof (load_step_printed dataLine ret out) as (Hw & Hb & Ht);
    destruct (load_step dataLine ret out) as [ret' out']; cbn [fst snd] in *.
  - unfold wentWrong, blobCounts, totals in *.
    rewrite !omap_app, Hw, Hb, Ht. cbn. by rewrite !app_nil_r.
  - destruct (IH (cleanLine next) ret' out') as (IHw & IHb & IHt).
    cbn zeta in *. rewrite IHw, IHb, IHt, Hw, Hb, Ht.
    change (dataLine :: cleanLine next :: map cleanLine csvFile)
      with ([dataLine] ++ cleanLine next :: map cleanLine csvFile).
    by rewrite !filter_app, map_app, <- !app_assoc.
Qed.

(** X4: past a usable header, the lines reported as gone wrong are exactly
    the data lines that do not read their nine required fields, in file
    order; one blob count is reported per row of the log, in order; and one
    total is reported, which is the length of the log. *)
Theorem loadData_reports_every_line
    (fs : string -> option (list string)) (fn header : string)
    (lines : list string) :
  fs fn = Some (header :: lines) ->
  cleanLine header <> "" ->
  wentWrong (loadData fs fn).2
  = filter (fun l => ¬ readsRequired l) (map cleanLine lines)
  /\ blobCounts (loadData fs fn).2
     = map (fun row => length (measurements row)) (loadData fs fn).1
  /\ totals (loadData fs fn).2 = [length (loadData fs fn).1].
Proof.
  intros Hfile Hheader. rewrite loadData_rows_cases.
  unfold loadData. rewrite Hfile.
  destruct (decide (cleanLine header = "")) as [|_]; [done|].
  destruct lines as [|first rest]; [done|].
  destruct (load_loop_printed rest (cleanLine first) [] []) as (Hw & Hb & Ht).
  cbn zeta in *. rewrite Hw, Hb, Ht, load_loop_rows. cbn [map app].
  by rewrite <- list_fmap_compose.
Qed.

Lemma leftover_length {A : Type} (l : list A) :
  length (leftover l) = (length l mod 3)%nat.
Proof.
  assert (H : forall n (l : list A), (length l < n)%nat ->
              length (leftover l) = (length l mod 3)%nat).
  { induction n as [|n IH]; intros k Hk; [lia|].
    destruct k as [|a [|b [|c rest]]]; try reflexivity.
    cbn [leftover length]. rewrite IH by (simpl in Hk; lia).
    change (S (S (S (length rest)))) with (3 + length rest)%nat.
    rewrite (Nat.add_comm 3).
    change 3%nat with (1 * 3)%nat at 2.
    by rewrite Nat.Div0.mod_add. }
  apply (H (S (length l))). lia.
Qed.

(** The pieces pending after blob fields that can all be read. *)
Lemma pieces_from fields : forall self vs,
  Forall2 (fun f v => getFieldAs_float f = Some v) fields vs ->
  9 <= field_ self ->
  field_ self + Z.of_nat (length fields) < size_t_max ->
  (length (measurementPieces_ self) < 3)%nat ->
  measurementPieces_ (iterateFields_from self fields)
  = leftover (measurementPieces_ self ++ vs).
Proof.
  induction fields as [|f fields IH]; intros self vs Hvs Hlo Hhi Hp.
  - inversion Hvs; subst. rewrite app_nil_r. simpl.
    destruct (measurementPieces_ self) as [|a [|b [|c ?]]]; simpl in *;
      (done || lia).
  - inversion Hvs as [|? v ? vs' Hf Hrest]; subst.
    cbn [iterateFields_from length] in *.
    rewrite LoadRow_call_blob by lia. cbn zeta. rewrite Hf.
    destruct self as [row fld pieces oor]; cbn [row_ field_
      measurementPieces_ outOfRange_] in *.
    destruct pieces as [|a [|b [|c ?]]]; simpl in Hp; try lia;
      unfold push_piece; cbn [measurementPieces_ app row_ field_
                              outOfRange_];
      rewrite (IH _ vs')
        by (cbn [field_ measurementPieces_ length]; (done || lia));
      reflexivity.
Qed.

(** X5: for an accepted line whose trailing fields can all be read, the
    pieces left pending are the values that make no triple, one or two of
    them exactly when the number of trailing fields is no multiple of 3;
    that is when the leftover message is printed, before the blob count
    floor(trailing / 3). *)
Theorem leftover_pieces_reported (dataLine : string) (r : Required)
    (trailing : list string) (vs : list float32)
    (ret : list TimestampedMeasurements) (out : list Diagnostic) :
  requiredFields (fieldsOf dataLine) = Some (r, trailing) ->
  mapM getFieldAs_float trailing = Some vs ->
  Z.of_nat (length (fieldsOf dataLine)) < size_t_max ->
  measurementPieces_ (loadLine dataLine) = leftover vs
  /\ length (leftover vs) = (length trailing mod 3)%nat
  /\ (load_step dataLine ret out).2
     = out
       ++ (if decide (length trailing mod 3 = 0)%nat
           then [] else [LeftoverPieces])
       ++ [RowHasBlobs (length trailing / 3)].
Proof.
  intros Hreq Hvs Hlen.
  pose proof (required_cases (fieldsOf dataLine)) as Hc.
  rewrite Hreq in Hc.
  pose proof (requiredFields_length _ _ _ Hreq) as Hn.
  apply mapM_Some_1 in Hvs.
  pose proof (Forall2_length _ _ _ Hvs) as Hlv.
  assert (Hpieces : measurementPieces_ (loadLine dataLine) = leftover vs).
  { unfold loadLine, iterateFields. rewrite Hc.
    rewrite pieces_from with (vs := vs); [done|done|simpl; lia..]. }
  assert (Hmeas : length (measurements (row_ (loadLine dataLine)))
                  = (length trailing / 3)%nat).
  { unfold loadLine, iterateFields. rewrite Hc.
    rewrite <- (app_nil_r trailing) at 1.
    rewrite blobs_from with (vs := vs);
      [|done|done|simpl; lia|rewrite app_nil_r; simpl; lia|simpl; lia].
    cbn. by rewrite length_map, triples_length, Hlv. }
  assert (Hleft : length (leftover vs) = (length trailing mod 3)%nat).
  { by rewrite leftover_length, Hlv. }
  split; [done|]. split; [done|].
  rewrite load_step_out, Hpieces, Hmeas.
  assert (Hr : readsRequired dataLine = true).
  { apply bool_decide_eq_true. by eexists. }
  rewrite Hr. f_equal. f_equal.
  destruct (decide (length trailing mod 3 = 0)%nat) as [Hz|Hz];
    destruct (leftover vs); cbn [length] in Hleft; first [done | congruence | lia].
Qed.

(** X8: the rows of a file are read line by line, each on its own: the
    log of a file whose data lines are [l1] followed by [l2] is the log of
    [l1] followed by the log of [l2]. *)
Theorem loadData_by_lines (fn header : string) (l1 l2 : list string) :
  cleanLine header <> "" ->
  (loadData (fun _ => Some (header :: l1 ++ l2)) fn).1
  = (loadData (fun _ => Some (header :: l1)) fn).1
    ++ (loadData (fun _ => Some (header :: l2)) fn).1.
Proof.
  intros Hheader. rewrite !loadData_rows_cases.
  destruct (decide (cleanLine header = "")) as [|_]; [done|].
  by rewrite map_app, filter_app, map_app.
Qed.

End LoaderMore.

Lemma short_line_rejected_witness :
  ok (row_ (@loadLine Sample.tools "7")) = false.
Proof.
  apply (@short_line_rejected Sample.tools). vm_compute. lia.
Defined.

Lemma loadData_reports_every_line_witness :
  let fs := Sample.disk [Sample.header; Sample.line1; Sample.line4;
                         Sample.line3; "7"%string] in
  let fn := "augmented-blobs.csv"%string in
  wentWrong (@loadData Sample.tools fs fn).2
  = filter (fun l => ¬ @readsRequired Sample.tools l)
           (map (@cleanLine Sample.tools)
                [Sample.line1; Sample.line4; Sample.line3; "7"%string])
  /\ blobCounts (@loadData Sample.tools fs fn).2
     = map (fun row => length (measurements row))
           (@loadData Sample.tools fs fn).1
  /\ totals (@loadData Sample.tools fs fn).2
     = [length (@loadData Sample.tools fs fn).1].
Proof.
  apply (@loadData_reports_every_line Sample.tools _ _ Sample.header).
  - reflexivity.
  - vm_compute. discriminate.
Defined.

Lemma leftover_pieces_reported_witness :
  measurementPieces_ (@loadLine Sample.tools Sample.line3)
  = leftover [1; 2; 3; 4; 5; 6; 7]%float
  /\ length (leftover [1; 2; 3; 4; 5; 6; 7]%float)
     = (length ["1"; "2"; "3"; "4"; "5"; "6"; "7"]%string mod 3)%nat
  /\ (@load_step Sample.tools Sample.line3 [] []).2
     = [] ++ (if decide (length ["1"; "2"; "3"; "4"; "5"; "6"; "7"]%string
                         mod 3 = 0)%nat
              then [] else [LeftoverPieces])
       ++ [RowHasBlobs
             (length ["1"; "2"; "3"; "4"; "5"; "6"; "7"]%string / 3)].
Proof.
  eapply (@leftover_pieces_reported Sample.tools Sample.line3).
  - vm_compute. reflexivity.
  - vm_compute. reflexivity.
  - vm_compute. reflexivity.
Defined.

Lemma accepted_row_reference_witness :
  xlate (row_ (@loadLine Sample.tools Sample.line3))
  = [None; Some 4%float; Some 5%float]
  /\ rot (row_ (@loadLine Sample.tools Sample.line3))
     = mkQuaterniond (Some 1%float) (Some 0%float) (Some 0%float)
                     (Some 0%float)
  /\ tv (row_ (@loadLine Sample.tools Sample.line3))
     = mkTimeValue (Some 11) (Some 30).
Proof.
  apply (@accepted_row_reference Sample.tools Sample.line3
           (mkRequired 4%float 5%float 6%float 1%float 0%float 0%float 0%float 11 30)
           ["1"; "2"; "3"; "4"; "5"; "6"; "7"]%string).
  - vm_compute. reflexivity.
  - vm_compute. reflexivity.
Defined.

Lemma unreadable_blob_field_keeps_row_witness :
  ok (row_ (@loadLine Sample.tools Sample.line2)) = true
  /\ measurements (row_ (@loadLine Sample.tools Sample.line2))
     = map (@ledOf Sample.tools) (triples [5; 6; 7; 8]%float).
Proof.
  eapply (@unreadable_blob_field_keeps_row Sample.tools Sample.line2 _
            ["5"; "6"; "7"; "8"]%string "x"%string []).
  - vm_compute. reflexivity.
  - vm_compute. reflexivity.
  - vm_compute. reflexivity.
  - vm_compute. reflexivity.
Defined.

Lemma loadData_by_lines_witness :
  (@loadData Sample.tools
     (fun _ => Some (Sample.header
                     :: [Sample.line1; Sample.line4] ++ [Sample.line3]))
     "augmented-blobs.csv").1
  = (@loadData Sample.tools
       (fun _ => Some (Sample.header :: [Sample.line1; Sample.line4]))
       "augmented-blobs.csv").1
    ++ (@loadData Sample.tools
          (fun _ => Some (Sample.header :: [Sample.line3]))
          "augmented-blobs.csv").1.
Proof.
  apply (@loadData_by_lines Sample.tools). vm_compute. discriminate.
Defined.

(** ** Configuration and optimizer, further *)
Section OptimizerMore.
Context {lib : TrackerLib} {opt : Newuoa}.

Lemma long_checked_Some (z : Z) :
  long_min <= z <= long_max -> long_checked z = Some z.
Proof.
  intros [Hlo Hhi]. unfold long_checked.
  apply Z.leb_le in Hlo. apply Z.leb_le in Hhi. by rewrite Hlo, Hhi.
Qed.

Lemma long_checked_None (z : Z) :
  z < long_min \/ long_max < z -> long_checked z = None.
Proof.
  unfold long_checked. intros [H | H].
  - apply Z.leb_gt in H. by rewrite H.
  - apply Z.leb_gt in H. rewrite H. by rewrite andb_false_r.
Qed.

(** Evaluates the bounds of [long] and [std::size_t] in a goal. *)
Ltac long_bounds :=
  let lo := eval vm_compute in long_min in
  let hi := eval vm_compute in long_max in
  let sz := eval vm_compute in size_t_max in
  change long_min with lo in *; change long_max with hi in *;
  change size_t_max with sz in *.

(** With a number of points and a dimension between 0 and 2^28 nothing
    overflows, and the working space is what the formula gives over the
    integers. *)
Lemma workingSpaceNeeded_small (npt n : Z) :
  0 <= npt < 2 ^ 28 -> 0 <= n < 2 ^ 28 ->
  workingSpaceNeeded npt n
  = Some ((npt + 13) * (npt + n) + Z.quot (3 * n * (n + 3)) 2)
  /\ 0 <= (npt + 13) * (npt + n) + Z.quot (3 * n * (n + 3)) 2 < 2 ^ 60.
Proof.
  intros Hnpt Hn.
  change (2 ^ 28) with 268435456 in *.
  change (2 ^ 60) with 1152921504606846976.
  assert (Hab : 0 <= (npt + 13) * (npt + n) <= 268435469 * 536870912).
  { split; [apply Z.mul_nonneg_nonneg; lia|].
    apply Z.mul_le_mono_nonneg; lia. }
  assert (Hcd : 0 <= 3 * n * (n + 3) <= 805306368 * 268435459).
  { split; [apply Z.mul_nonneg_nonneg; lia|].
    apply Z.mul_le_mono_nonneg; lia. }
  assert (Hq : 0 <= Z.quot (3 * n * (n + 3)) 2 <= 3 * n * (n + 3)).
  { rewrite Z.quot_div_nonneg by lia. split.
    - apply Z.div_pos; lia.
    - apply Z.div_le_upper_bound; lia. }
  split; [|lia].
  unfold workingSpaceNeeded.
  rewrite (long_checked_Some (npt + 13)) by (long_bounds; lia).
  cbn [mbind option_bind].
  rewrite (long_checked_Some (npt + n)) by (long_bounds; lia).
  cbn [mbind option_bind].
  rewrite (long_checked_Some ((npt + 13) * (npt + n)))
    by (long_bounds; lia).
  cbn [mbind option_bind].
  rewrite (long_checked_Some (3 * n)) by (long_bounds; lia).
  cbn [mbind option_bind].
  rewrite (long_checked_Some (n + 3)) by (long_bounds; lia).
  cbn [mbind option_bind].
  rewrite (long_checked_Some (3 * n * (n + 3))) by (long_bounds; lia).
  cbn [mbind option_bind].
  apply long_checked_Some. long_bounds. lia.
Qed.



(** X10: whatever the optimizer and the file name, [runOptimizer] reaches
    the optimizer and calls it on the four-dimensional start vector with 8
    points, the radii 1e-4 and then 1e-8 (the pair it writes is the other
    way round), 10 evaluations and a working space of 294, and answers with
    the vector the optimizer leaves. *)
Theorem runOptimizer_call (fn : string) :
  runOptimizer fn =
    Some (let '(ret, x) :=
            newuoa 4 objective 4 8 [# 4.14e-6; 1e-2; 0; 5e-2]%float
                   1e-4%float 1e-8%float 10 294 in
          (x, (ret, x))).
Proof.
  unfold runOptimizer.
  change (ei_newuoa (4 * 2) [# 4.14e-6; 1e-2; 0; 5e-2]%float
                    (1e-8, 1e-4)%float 10 objective)
    with (Some (newuoa 4 objective 4 8 [# 4.14e-6; 1e-2; 0; 5e-2]%float
                       1e-4%float 1e-8%float 10 294)).
  cbn [mbind option_bind].
  by destruct (newuoa 4 objective 4 8 _ _ _ 10 294).
Qed.

(** X11: a configuration updated from one vector and then from another is
    the configuration updated from the second alone. *)
Theorem updateConfigFromVec_last_wins (params : ConfigParams)
    (v1 v2 : ParamVec) :
  updateConfigFromVec (updateConfigFromVec params v1) v2
  = updateConfigFromVec params v2.
Proof.
  destruct params as [noise ? ? ?]. revert noise.
  intros noise. inv_vec noise. intros.
  inv_vec v1. inv_vec v2. intros. reflexivity.
Qed.

(** X12: the vector can be read back from the configuration it updated,
    and the update leaves the other members of the configuration alone. *)
Theorem paramVecOfConfig_updateConfigFromVec (params : ConfigParams)
    (v : ParamVec) :
  paramVecOfConfig (updateConfigFromVec params v) = v
  /\ otherParams (updateConfigFromVec params v) = otherParams params.
Proof.
  destruct params as [noise ? ? ?]. revert noise.
  intros noise. inv_vec noise. intros.
  inv_vec v. intros. split; reflexivity.
Qed.

End OptimizerMore.

(** ** Pose filter and RANSAC strategy, further *)
Section StrategyMore.
Context {tools : CSVTools} {filters : EigenFilters}.

Implicit Types
  (self : RansacOneEuro)
  (rows : list (option (Vector3d * Quaterniond) * TimestampedMeasurements)).

(** X13: the two one-euro filters are fed the same time step, which is
    the given one or 1 and is never zero or negative. *)
Theorem PoseFilter_filter_step_positive (self : PoseFilter) (dt : double)
    (position : Vector3d) (orientation : Quaterniond) :
  exists dt' : double,
    PoseFilter_filter self dt position orientation
    = mkPoseFilter
        (filter_Vector3d (m_positionFilter self) dt' position)
        (filter_Quaterniond (m_orientationFilter self) dt' orientation)
    /\ (dt' = dt \/ dt' = 1%float)
    /\ PrimFloat.leb dt' 0%float = false.
Proof.
  unfold PoseFilter_filter. destruct (PrimFloat.leb dt 0%float) eqn:Hdt.
  - exists 1%float. repeat split; by right.
  - exists dt. repeat split; [by left|done].
Qed.

(** What the strategy remembers between rows. *)
Lemma RansacOneEuro_call_forgets_gotPose self gotRansac row :
  RansacOneEuro_call self gotRansac row
  = RansacOneEuro_call
      (mkRansacOneEuro (ransacPoseFilter self) (last self) (isFirst self)
                       false)
      gotRansac row.
Proof. reflexivity. Qed.

(** X14: in every run the pose filter is left alone by a failed row, is
    updated with the time step 1 on the first successful row the strategy
    ever sees, and on every other successful row with the time since the
    successful row before it, each time with the position and orientation
    RANSAC gave; the time steps recorded beside the state are those. *)
Theorem RansacOneEuro_run_dtTrace rows : forall self,
  ransacPoseFilter (RansacOneEuro_run self rows).1
  = filterBy (if isFirst self then None else Some (last self))
             (ransacPoseFilter self) rows
  /\ (RansacOneEuro_run self rows).2
     = dtTrace (if isFirst self then None else Some (last self)) rows.
Proof.
  induction rows as [|[[[pos quat]|] row] rows IH]; intros self; [done|..];
    cbn [RansacOneEuro_run RansacOneEuro_call dtTrace filterBy];
    match goal with
    | |- context [RansacOneEuro_run ?s rows] =>
        destruct (IH s) as [IHf IHd];
        destruct (RansacOneEuro_run s rows) as [final dts]
    end; cbn [fst snd isFirst last ransacPoseFilter] in *;
    rewrite IHf, IHd.
  - by destruct (isFirst self).
  - done.
Qed.

(** The filter, the last timestamp and the first-row flag after a run do
    not depend on the pose flag the run starts with. *)
Lemma RansacOneEuro_run_forgets_gotPose rows self :
  let a := (RansacOneEuro_run self rows).1 in
  let b := (RansacOneEuro_run
              (mkRansacOneEuro (ransacPoseFilter self) (last self)
                               (isFirst self) false) rows).1 in
  ransacPoseFilter a = ransacPoseFilter b
  /\ last a = last b /\ isFirst a = isFirst b.
Proof.
  destruct rows as [|[gotRansac row] rows]; [done|].
  cbn [RansacOneEuro_run].
  by rewrite (RansacOneEuro_call_forgets_gotPose self).
Qed.

(** X15: the rows on which RANSAC fails leave no trace in the filter: the
    filter, the last timestamp and the first-row flag after a run are those
    after the run over its successful rows alone. *)
Theorem RansacOneEuro_run_successes rows : forall self,
  let a := (RansacOneEuro_run self rows).1 in
  let b := (RansacOneEuro_run self (successes rows)).1 in
  ransacPoseFilter a = ransacPoseFilter b
  /\ last a = last b /\ isFirst a = isFirst b.
Proof.
  unfold successes.
  induction rows as [|[[[pos quat]|] row] rows IH]; intros self; [done|..].
  - rewrite filter_cons_True by (by eexists).
    cbn [RansacOneEuro_run RansacOneEuro_call].
    match goal with
    | |- context [RansacOneEuro_run ?s rows] => specialize (IH s)
    end.
    cbn zeta in IH.
    destruct (RansacOneEuro_run _ rows) as [fa da].
    destruct (RansacOneEuro_run _ (filter _ rows)) as [fb db].
    exact IH.
  - rewrite filter_cons_False by (by intros [? ?]).
    cbn [RansacOneEuro_run RansacOneEuro_call].
    pose proof (RansacOneEuro_run_forgets_gotPose rows self) as Hf.
    specialize (IH self). cbn zeta in *.
    destruct (RansacOneEuro_run (mkRansacOneEuro _ _ _ false) rows)
      as [fa da].
    cbn [fst] in *.
    destruct Hf as (Hf1 & Hf2 & Hf3), IH as (IH1 & IH2 & IH3).
    rewrite <- Hf1, <- Hf2, <- Hf3. done.
Qed.

(** X16: after a run the strategy has a pose exactly when RANSAC succeeded
    on the last row. *)
Theorem RansacOneEuro_havePose_last_row rows self gotRansac row :
  havePose (RansacOneEuro_run self (rows ++ [(gotRansac, row)])).1
  = bool_decide (is_Some gotRansac).
Proof.
  rewrite RansacOneEuro_run_app.
  destruct (RansacOneEuro_run self rows) as [mid dts].
  cbn [RansacOneEuro_run].
  by destruct gotRansac as [[pos quat]|].
Qed.

(** X17: a successful row whose timestamp is not after that of the
    successful row before it is filtered with the time step 1. *)
Theorem RansacOneEuro_repeated_timestamp self
    (pos : Vector3d) (quat : Quaterniond) (row : TimestampedMeasurements) :
  isFirst self = false ->
  PrimFloat.leb (osvrTimeValueDurationSeconds (tv row) (last self)) 0%float
  = true ->
  ransacPoseFilter (RansacOneEuro_call self (Some (pos, quat)) row).1
  = mkPoseFilter
      (filter_Vector3d (m_positionFilter (ransacPoseFilter self))
                       1%float pos)
      (filter_Quaterniond (m_orientationFilter (ransacPoseFilter self))
                          1%float quat).
Proof.
  intros Hfirst Hdt. cbn [RansacOneEuro_call fst ransacPoseFilter isFirst].
  rewrite Hfirst. unfold PoseFilter_filter. cbn [last].
  by rewrite Hdt.
Qed.

End StrategyMore.

Lemma RansacOneEuro_repeated_timestamp_witness :
  let row := @mkRow Sample.tools (mkTimeValue (Some 10) (Some 20))
                    Vector3d_new Quaterniond_new [] true in
  let self := @mkRansacOneEuro Sample.filters PoseFilter_new
                               (mkTimeValue (Some 10) (Some 20)) false true in
  ransacPoseFilter
    (@RansacOneEuro_call Sample.tools Sample.filters self
       (Some (Vector3d_new, Quaterniond_new)) row).1
  = @mkPoseFilter Sample.filters
      [(1%float, Vector3d_new)] [(1%float, Quaterniond_new)].
Proof.
  apply (@RansacOneEuro_repeated_timestamp Sample.tools Sample.filters).
  - reflexivity.
  - vm_compute. reflexivity.
Defined.

(** ** The main algorithm and the replay *)
Section ReplayFacts.
Context {lib : TrackerLib} {tools : CSVTools} {filters : EigenFilters}
        {rt : TrackerRuntime}.

Implicit Types (st : ReplayState) (data : list TimestampedMeasurements).

Lemma replay_row_mainAlgo cam st row :
  mainAlgo (replay_row cam st row)
  = (MainAlgoUnderStudy.call (mainAlgo st) cam (replay_system st) row).1.
Proof.
  unfold replay_row, RansacOneEuro_on.
  destruct (MainAlgoUnderStudy.call _ _ _ _) as [m system].
  by destruct (uncalibratedRANSACPoseEstimateFromLeds system cam).
Qed.

Lemma replay_row_unfold cam (system : TrackingSystem)
    (m : MainAlgoUnderStudy.t) (r : RansacOneEuro) row :
  replay_row cam (mkReplayState system m r) row
  = let updated :=
      updateBodiesFromVideoData system (makeImageOutputDataFromRow row cam) in
    let answer := uncalibratedRANSACPoseEstimateFromLeds updated cam in
    mkReplayState answer.1
      (MainAlgoUnderStudy.call m cam system row).1
      (RansacOneEuro_call r answer.2 row).1.
Proof.
  unfold replay_row, RansacOneEuro_on, MainAlgoUnderStudy.call,
    makeImageOutputDataFromRow.
  cbn [mainAlgo replay_system ransacOneEuro fst snd].
  by destruct (uncalibratedRANSACPoseEstimateFromLeds _ cam).
Qed.

(** The main algorithm never reports a pose it does not hold. *)
Lemma replay_pose_defined cam data : forall st,
  (MainAlgoUnderStudy.havePose (mainAlgo st) = true ->
   is_Some (MainAlgoUnderStudy.getPose (mainAlgo st))) ->
  MainAlgoUnderStudy.havePose (mainAlgo (replay cam st data)) = true ->
  is_Some (MainAlgoUnderStudy.getPose (mainAlgo (replay cam st data))).
Proof.
  unfold replay.
  induction data as [|row data IH]; intros st Hst; [exact Hst|].
  cbn [foldl]. apply IH. rewrite replay_row_mainAlgo.
  unfold MainAlgoUnderStudy.call, MainAlgoUnderStudy.havePose,
    MainAlgoUnderStudy.getPose.
  cbn. intros ->. by eexists.
Qed.

(** X18: when the main algorithm says it has a pose after a replay, the
    pose it gives is one the tracking system gave it, not the indeterminate
    pose it starts with. *)
Theorem MainAlgoUnderStudy_pose_defined (cam : CameraParameters)
    (system : TrackingSystem) (ransac : RansacOneEuro) data :
  let st :=
    replay cam (mkReplayState system MainAlgoUnderStudy.new ransac) data in
  MainAlgoUnderStudy.havePose (mainAlgo st) = true ->
  is_Some (MainAlgoUnderStudy.getPose (mainAlgo st)).
Proof. cbn zeta. by apply replay_pose_defined. Qed.

(** X19: the two strategies do not reach into each other: in a replay
    the tracking system and the main algorithm come out the same whatever
    state the RANSAC strategy starts in, and the tracking system and the
    RANSAC strategy come out the same whatever state the main algorithm
    starts in. *)
Theorem replay_strategies_apart (cam : CameraParameters) data :
  forall (system : TrackingSystem) (m1 m2 : MainAlgoUnderStudy.t)
         (r1 r2 : RansacOneEuro),
    let a := replay cam (mkReplayState system m1 r1) data in
    let b := replay cam (mkReplayState system m1 r2) data in
    let c := replay cam (mkReplayState system m2 r1) data in
    replay_system a = replay_system b
    /\ mainAlgo a = mainAlgo b
    /\ replay_system a = replay_system c
    /\ ransacOneEuro a = ransacOneEuro c.
Proof.
  unfold replay.
  induction data as [|row data IH]; intros system m1 m2 r1 r2; [done|].
  cbn [foldl]. rewrite !replay_row_unfold. cbn zeta. apply IH.
Qed.

(** X20: [main] replays the rows of exactly those data lines of
    [augmented-blobs.csv] that read their nine required fields, in file
    order, on a tracking system made from the configuration of its literal
    parameter vector, both strategies starting fresh. *)
Theorem main_replays_accepted_rows
    (fs : string -> option (list string)) (cam : CameraParameters)
    (header : string) (lines : list string) :
  fs "augmented-blobs.csv"%string = Some (header :: lines) ->
  cleanLine header <> "" ->
  (main fs cam).2
  = replay cam
      (mkReplayState
         (makeHDKTrackingSystem
            (updateConfigFromVec ConfigParams_new
               [# 4.14e-6; 1e-2; 0; 5e-2]%float))
         MainAlgoUnderStudy.new RansacOneEuro_new)
      (map rowOf (filter (fun l => readsRequired (cleanLine l)) lines)).
Proof.
  intros Hfile Hheader. unfold main.
  pose proof (loadData_rows_cases fs "augmented-blobs.csv") as Hrows.
  destruct (loadData fs "augmented-blobs.csv") as [data out].
  cbn [fst snd] in *. rewrite Hrows, Hfile.
  destruct (decide (cleanLine header = "")) as [|_]; [done|].
  f_equal. unfold rowOf. clear.
  induction lines as [|l lines IH]; [done|]. cbn [map].
  destruct (readsRequired (cleanLine l)) eqn:Hr.
  - rewrite !filter_cons_True by (by apply Is_true_true_2).
    cbn [map]. by rewrite IH.
  - by rewrite !filter_cons_False by (by apply Is_true_false_2).
Qed.

End ReplayFacts.

Lemma MainAlgoUnderStudy_pose_defined_witness :
  let st :=
    @replay Sample.counting_lib Sample.tools Sample.filters Sample.runtime tt
      (@mkReplayState Sample.counting_lib Sample.tools Sample.filters
         Sample.runtime (0%nat, false) MainAlgoUnderStudy.new
         RansacOneEuro_new)
      [@rowOf Sample.tools Sample.line3] in
  MainAlgoUnderStudy.havePose (mainAlgo st) = true
  /\ is_Some (MainAlgoUnderStudy.getPose (mainAlgo st)).
Proof.
  cbn zeta. split; [reflexivity|].
  apply (@MainAlgoUnderStudy_pose_defined Sample.counting_lib Sample.tools
           Sample.filters Sample.runtime).
  reflexivity.
Defined.

Lemma main_replays_accepted_rows_witness :
  (@main Sample.counting_lib Sample.tools Sample.filters Sample.runtime
     (Sample.disk [Sample.header; Sample.line1; Sample.line4; Sample.line3])
     tt).2
  = @replay Sample.counting_lib Sample.tools Sample.filters Sample.runtime tt
      (@mkReplayState Sample.counting_lib Sample.tools Sample.filters
         Sample.runtime
         (@makeHDKTrackingSystem Sample.counting_lib
            (@updateConfigFromVec Sample.counting_lib
               (@ConfigParams_new Sample.counting_lib)
               [# 4.14e-6; 1e-2; 0; 5e-2]%float))
         MainAlgoUnderStudy.new RansacOneEuro_new)
      (map (@rowOf Sample.tools)
           (filter (fun l => @readsRequired Sample.tools
                               (@cleanLine Sample.tools l))
                   [Sample.line1; Sample.line4; Sample.line3])).
Proof.
  apply (@main_replays_accepted_rows Sample.counting_lib Sample.tools
           Sample.filters Sample.runtime _ _ Sample.header).
  - reflexivity.
  - vm_compute. discriminate.
Defined.


